(** * Awanbot backend: the feedback and booking service

    A shallow embedding of [main.py]: the API-key dependency, the four
    protected routes and the root route, together with the part of their
    environment the handlers talk to: the two MongoDB collections, the
    clock, the identifier generator, and the way FastAPI runs an endpoint
    function behind a dependency.

    The handlers are written in a reader/state/exception monad [M] and
    follow the Python text statement by statement.  What the libraries do
    is modelled at the level the handlers use them:
    - a [str] is a list of code points, [strip] removes the characters
      [str.isspace] accepts from both ends;
    - a [datetime] has its calendar fields and an optional UTC offset;
      ordering a naive against an aware value raises [TypeError];
    - a collection is the list of its documents in natural order, each
      as the database stores it: a datetime is a BSON date, the UTC
      instant in whole milliseconds, and comes back as a naive datetime;
      [find_one] returns the first match, [insert_one] appends the
      document under a generated [_id] that must not be in use, and
      every operation is logged in [calls];
    - the body of a request is read and decoded before the key is
      checked;
    - requests are served one at a time. *)

From Stdlib Require Import ZArith NArith List String Ascii Lia.
From Stdlib Require Strings.Byte.
From stdpp Require Import base option list vector strings gmap.

Open Scope Z_scope.

(** ** Python text *)

(** A Python [str] is a sequence of Unicode code points; [len] counts them. *)
Definition char := N.
Definition str := list char.

Definition py (s : string) : str := map N_of_ascii (list_ascii_of_string s).
Arguments py : simpl never.

Definition len (s : str) : nat := length s.

(** [str.isspace] on one code point: the characters CPython classifies
    as whitespace, which are the ones [str.strip()] removes. *)
Definition isspace (c : char) : bool :=
  ((9 <=? c) && (c <=? 13) || (28 <=? c) && (c <=? 32)
   || (c =? 133) || (c =? 160) || (c =? 5760)
   || (8192 <=? c) && (c <=? 8202)
   || (c =? 8232) || (c =? 8233) || (c =? 8239) || (c =? 8287)
   || (c =? 12288))%N.

Fixpoint lstrip (s : str) : str :=
  match s with
  | [] => []
  | c :: s' => if isspace c then lstrip s' else s
  end.

Definition rstrip (s : str) : str := rev (lstrip (rev s)).

Definition strip (s : str) : str := rstrip (lstrip s).

(** The number of characters of a text that are not whitespace. *)
Definition count_nonspace (s : str) : nat :=
  length (List.filter (fun c => negb (isspace c)) s).

(** ** BSON object identifiers *)

#[global] Instance byte_eq_dec : EqDecision Byte.byte := Strings.Byte.byte_eq_dec.

(** An [ObjectId] is twelve bytes. *)
Definition ObjectId := vec Byte.byte 12.

Definition hexdigit (n : N) : char :=
  (if n <? 10 then 48 + n else 87 + n)%N.

Definition hexlify (b : Byte.byte) : str :=
  let n := Strings.Byte.to_N b in [hexdigit (n / 16); hexdigit (n mod 16)]%N.

(** [str(oid)]: twenty-four lower-case hexadecimal digits. *)
Definition ObjectId_str (oid : ObjectId) : str :=
  concat (map hexlify (vec_to_list oid)).

Definition unhex (c : char) : option N :=
  (if (48 <=? c) && (c <=? 57) then Some (c - 48)
   else if (97 <=? c) && (c <=? 102) then Some (c - 87)
   else if (65 <=? c) && (c <=? 70) then Some (c - 55)
   else None)%N.

Fixpoint fromhex (s : str) : option (list Byte.byte) :=
  match s with
  | [] => Some []
  | hi :: lo :: s' =>
      h ← unhex hi; l ← unhex lo;
      b ← Strings.Byte.of_N (16 * h + l);
      bs ← fromhex s'; Some (b :: bs)
  | _ => None
  end.

Fixpoint vec_of_list {A} (n : nat) (l : list A) : option (vec A n) :=
  match n, l with
  | O, [] => Some [#]
  | S n', x :: l' => v ← vec_of_list n' l'; Some (x ::: v)
  | _, _ => None
  end.

(** Modelled from the spec: the constructor [ObjectId(id)] of the bson
    package, which is not part of this repository.  An identifier has
    the valid format when it is exactly twenty-four hexadecimal
    characters; the constructor fails (InvalidId) on every other text. *)
Definition ObjectId_of_str (id : str) : option ObjectId :=
  if Nat.eqb (len id) 24 then bs ← fromhex id; vec_of_list 12 bs else None.

(** Modelled from the spec: [ObjectId.is_valid] of the bson package,
    true exactly when the constructor accepts the text. *)
Definition ObjectId_is_valid (id : str) : bool :=
  bool_decide (is_Some (ObjectId_of_str id)).

Definition is_hex (c : char) : bool := bool_decide (is_Some (unhex c)).

(** ** Dates and times *)

(** A Python [datetime]: a calendar day (as its proleptic Gregorian
    ordinal), the time-of-day fields, and the UTC offset in minutes of
    an aware value ([None] for a naive one). *)
Record datetime := mk_datetime {
  date : Z;
  hour : Z;
  minute : Z;
  second : Z;
  microsecond : Z;
  tzinfo : option Z
}.

#[global] Instance datetime_eq_dec : EqDecision datetime.
Proof. solve_decision. Defined.

(** The instant of a datetime, in microseconds, on the UTC time line (a
    naive value is read as UTC, which is also how it is stored). *)
Definition utc_micros (d : datetime) : Z :=
  ((((date d * 24 + hour d) * 60 + minute d - default 0 (tzinfo d)) * 60
    + second d) * 1000000 + microsecond d).

(** [datetime.now(timezone.utc)] for a clock reading [t]. *)
Definition datetime_of_clock (t : Z) : datetime :=
  {| date := t / 86400000000;
     hour := (t / 3600000000) mod 24;
     minute := (t / 60000000) mod 60;
     second := (t / 1000000) mod 60;
     microsecond := t mod 1000000;
     tzinfo := Some 0 |}.

(** Python orders two aware or two naive datetimes by their instants and
    raises [TypeError] when one is naive and the other aware. *)
Definition comparable (a b : datetime) : bool :=
  bool_decide (is_Some (tzinfo a) ↔ is_Some (tzinfo b)).

(** The BSON date the driver encodes a datetime to, in a document or in
    a query: the UTC instant in whole milliseconds, the microseconds
    below the millisecond dropped, counted from the same origin as
    [utc_micros]. *)
Definition bson_date (d : datetime) : Z := utc_micros d / 1000.

(** The datetime the driver decodes a BSON date to: naive, in UTC. *)
Definition datetime_of_bson (ms : Z) : datetime :=
  {| date := ms / 86400000;
     hour := (ms / 3600000) mod 24;
     minute := (ms / 60000) mod 60;
     second := (ms / 1000) mod 60;
     microsecond := (ms mod 1000) * 1000;
     tzinfo := None |}.

(** ** Request and response models *)

Module FeedbackCreate.
Record t := mk { name : str; email : str; feedback : str }.
End FeedbackCreate.

Module FeedbackInDB.
Record t := mk {
  id : option str; name : str; email : str; feedback : str; time : datetime }.
End FeedbackInDB.

Module BookingCreate.
Record t := mk {
  name : str; email : str; start_time : datetime; end_time : datetime;
  topic : str }.
End BookingCreate.

Module BookingInDB.
Record t := mk {
  id : option str; name : str; email : str; start_time : datetime;
  end_time : datetime; topic : str }.
End BookingInDB.

(** ** The database *)

(** The documents of the two collections as the database stores them:
    the fields of the dumped model, the server's additions, and the
    [_id] the driver assigns on insertion; a datetime is stored as a
    BSON date. *)
Module FeedbackDoc.
Record t := mk {
  _id : ObjectId; name : str; email : str; feedback : str; time : Z }.
End FeedbackDoc.

Module BookingDoc.
Record t := mk {
  _id : ObjectId; name : str; email : str; start_time : Z;
  end_time : Z; topic : str }.
End BookingDoc.

Inductive db_call :=
| FindOne (collection : string)
| InsertOne (collection : string).

(** The database [Awantec]: its two collections in natural order, and
    the operations issued against it so far (most recent first). *)
Record Db := mk_Db {
  feedback : list FeedbackDoc.t;
  bookings : list BookingDoc.t;
  calls : list db_call
}.

(** What a request reads from outside the program: the configured key
    ([os.getenv] gives [None] when the variable is unset), the clock (in
    microseconds of UTC, counted from the origin of the day ordinals),
    and the identifier the driver generates for an inserted document. *)
Record Env := mk_Env {
  API_KEY : option str;
  clock : Z;
  generated_id : ObjectId
}.

Inductive exn :=
| HTTPException (status_code : Z) (detail : str)
| TypeError
| InvalidId
| DuplicateKeyError.

Inductive result (A : Type) :=
| Return (a : A)
| Raise (e : exn).
Arguments Return {A} a.
Arguments Raise {A} e.

(** A handler reads the environment, may change the database, and
    either returns or raises. *)
Definition M (A : Type) : Type := Env -> Db -> result A * Db.

#[global] Instance M_ret : MRet M := λ A a _ db, (Return a, db).

#[global] Instance M_bind : MBind M := λ A B f m env db,
  match m env db with
  | (Return a, db') => f a env db'
  | (Raise e, db') => (Raise e, db')
  end.

Definition raise {A} (e : exn) : M A := λ _ db, (Raise e, db).

Definition ask : M Env := λ env db, (Return env, db).

Definition datetime_now_utc : M datetime :=
  env ← ask; mret (datetime_of_clock (clock env)).

(** [a < b] and [a >= b] on datetimes. *)
Definition dt_lt (a b : datetime) : M bool :=
  if comparable a b then mret (utc_micros a <? utc_micros b) else raise TypeError.

Definition dt_ge (a b : datetime) : M bool :=
  if comparable a b then mret (utc_micros b <=? utc_micros a) else raise TypeError.

(** A handle on one collection of the database. *)
Record Collection (D : Type) := mk_Collection {
  coll_name : string;
  docs : Db -> list D;
  set_docs : list D -> Db -> Db;
  doc_id : D -> ObjectId
}.
Arguments coll_name {D} _.
Arguments docs {D} _ _.
Arguments set_docs {D} _ _ _.
Arguments doc_id {D} _ _.

Definition called (c : db_call) (db : Db) : Db :=
  {| feedback := feedback db; bookings := bookings db; calls := c :: calls db |}.

Definition db_feedback : Collection FeedbackDoc.t :=
  {| coll_name := "feedback";
     docs := feedback;
     set_docs l db := {| feedback := l; bookings := bookings db; calls := calls db |};
     doc_id := FeedbackDoc._id |}.

Definition db_bookings : Collection BookingDoc.t :=
  {| coll_name := "bookings";
     docs := bookings;
     set_docs l db := {| feedback := feedback db; bookings := l; calls := calls db |};
     doc_id := BookingDoc._id |}.

(** [find_one(filter)]: the first document, in natural order, that
    matches the filter. *)
Definition find_one {D} (c : Collection D) (filter : D -> bool) : M (option D) :=
  λ _ db, let db := called (FindOne (coll_name c)) db in
          (Return (List.find filter (docs c db)), db).

(** The filter [{"_id": oid}]. *)
Definition by_id {D} (c : Collection D) (oid : ObjectId) : D -> bool :=
  λ d, bool_decide (doc_id c d = oid).

(** [insert_one(document)]: the driver gives the document a generated
    [_id] and sends it encoded (see [feedback_data] and [new_booking]
    for the encoded documents); the collection's unique index on [_id]
    refuses a duplicate, otherwise the document is appended. *)
Definition insert_one {D} (c : Collection D) (document : ObjectId -> D) : M ObjectId :=
  λ env db, let db := called (InsertOne (coll_name c)) db in
            let oid := generated_id env in
            if existsb (by_id c oid) (docs c db) then (Raise DuplicateKeyError, db)
            else (Return oid, set_docs c (docs c db ++ [document oid]) db).

(** ** Responses *)

(** What an endpoint function hands back to FastAPI: a document (or
    [None]) to be serialised through the route's response model, or a
    ready-made [JSONResponse]. *)
Inductive returned (D : Type) :=
| Document (doc : option D)
| JSONResponse (status_code : Z) (content : list (string * str)).
Arguments Document {D} doc.
Arguments JSONResponse {D} status_code content.

(** The body of an HTTP response: a record of the response model, the
    generic [{"detail": ...}] body of an [HTTPException], a JSON object
    written by the handler, the framework's list of request validation
    errors, or the framework's plain answer to an unhandled exception. *)
Inductive body (R : Type) :=
| Model (r : R)
| Detail (detail : str)
| Content (content : list (string * str))
| ValidationErrors
| InternalServerError.
Arguments Model {R} r.
Arguments Detail {R} detail.
Arguments Content {R} content.
Arguments ValidationErrors {R}.
Arguments InternalServerError {R}.

Record response (R : Type) := mk_response {
  status_code : Z;
  response_body : body R
}.
Arguments mk_response {R} _ _.
Arguments status_code {R} _.
Arguments response_body {R} _.

(** ** Security *)

Definition verify_api_key (x_api_key : str) : M unit :=
  env ← ask;
  if bool_decide (Some x_api_key ≠ API_KEY env) then
    raise (HTTPException 401 (py "Invalid or missing API Key"))
  else mret tt.

(** ** Routes *)

Definition root : list (string * str) := [("message", py "API is running.")].

(** [feedback_in.model_dump()] with the key [time] set, as the document
    the driver stores for it: [_id] added, the datetime encoded as a BSON
    date. *)
Definition feedback_data (feedback_in : FeedbackCreate.t) (time : datetime)
    (oid : ObjectId) : FeedbackDoc.t :=
  {| FeedbackDoc._id := oid;
     FeedbackDoc.name := FeedbackCreate.name feedback_in;
     FeedbackDoc.email := FeedbackCreate.email feedback_in;
     FeedbackDoc.feedback := FeedbackCreate.feedback feedback_in;
     FeedbackDoc.time := bson_date time |}.

(** [booking.model_dump()], as the document the driver stores for it:
    [_id] added, the two datetimes encoded as BSON dates. *)
Definition new_booking (booking : BookingCreate.t) (oid : ObjectId) : BookingDoc.t :=
  {| BookingDoc._id := oid;
     BookingDoc.name := BookingCreate.name booking;
     BookingDoc.email := BookingCreate.email booking;
     BookingDoc.start_time := bson_date (BookingCreate.start_time booking);
     BookingDoc.end_time := bson_date (BookingCreate.end_time booking);
     BookingDoc.topic := BookingCreate.topic booking |}.

Definition create_feedback (feedback_in : FeedbackCreate.t) : M (returned FeedbackDoc.t) :=
  (* 1. Validation *)
  if (len (strip (FeedbackCreate.feedback feedback_in)) <? 10)%nat then
    raise (HTTPException 400 (py "Feedback too short."))
  else
  (* 2. Prepare Data *)
  now ← datetime_now_utc;
  (* 3. Insert *)
  inserted_id ← insert_one db_feedback (feedback_data feedback_in now);
  (* 4. Return *)
  created_feedback ← find_one db_feedback (by_id db_feedback inserted_id);
  mret (Document created_feedback).

Definition get_feedback (id : str) : M (returned FeedbackDoc.t) :=
  if negb (ObjectId_is_valid id) then
    raise (HTTPException 400 (py "Invalid ID format"))
  else
  match ObjectId_of_str id with
  | None => raise InvalidId
  | Some oid =>
      doc ← find_one db_feedback (by_id db_feedback oid);
      match doc with
      | None => raise (HTTPException 404 (py "Not found"))
      | Some _ => mret (Document doc)
      end
  end.

(** The content [{"status": "failed", "reason": reason}] that the booking
    handlers put in their [JSONResponse]. *)
Definition failed (reason : str) : list (string * str) :=
  [("status", py "failed"); ("reason", reason)].

(** The filter [{"start_time": {"$lt": end_time}, "end_time": {"$gt": start_time}}]:
    the driver sends the two operands as BSON dates and the database
    compares them with the stored ones. *)
Definition overlap_query (booking : BookingCreate.t) : BookingDoc.t -> bool :=
  λ existing,
    (BookingDoc.start_time existing <? bson_date (BookingCreate.end_time booking))
    && (BookingDoc.end_time existing >? bson_date (BookingCreate.start_time booking)).

Definition create_booking (booking : BookingCreate.t) : M (returned BookingDoc.t) :=
  (* 1. Logic Checks *)
  not_before ← dt_ge (BookingCreate.start_time booking) (BookingCreate.end_time booking);
  if not_before : bool then
    mret (JSONResponse 400 (failed (py "Start time must be before end time.")))
  else
  now ← datetime_now_utc;
  in_past ← dt_lt (BookingCreate.start_time booking) now;
  if in_past : bool then
    mret (JSONResponse 400 (failed (py "Cannot create a booking in the past.")))
  else
  if (hour (BookingCreate.start_time booking) <? 9)
     || (hour (BookingCreate.end_time booking) >? 18) then
    mret (JSONResponse 400 (failed (py "Cannot create a booking outside office hours.")))
  else
  (* 2. Check Overlaps *)
  existing_booking ← find_one db_bookings (overlap_query booking);
  match existing_booking with
  | Some existing =>
      mret (JSONResponse 409 (failed
        (py "Time slot unavailable. Overlaps with booking ID: "
         ++ ObjectId_str (BookingDoc._id existing))))
  | None =>
  (* 3. Insert *)
  inserted_id ← insert_one db_bookings (new_booking booking);
  created_booking ← find_one db_bookings (by_id db_bookings inserted_id);
  mret (Document created_booking)
  end.

Definition get_booking (id : str) : M (returned BookingDoc.t) :=
  if negb (ObjectId_is_valid id) then
    mret (JSONResponse 400 (failed (py "Invalid ID format")))
  else
  match ObjectId_of_str id with
  | None => raise InvalidId
  | Some oid =>
      doc ← find_one db_bookings (by_id db_bookings oid);
      match doc with
      | None => raise (HTTPException 404 (py "Not found"))
      | Some _ => mret (Document doc)
      end
  end.

(** ** How FastAPI serves a route *)

(** The response models, applied to a document that [find_one] has
    returned: [PyObjectId] renders the document's [_id] with [str], and
    a BSON date has come back from the driver as a naive datetime. *)
Definition FeedbackInDB_validate (doc : FeedbackDoc.t) : FeedbackInDB.t :=
  {| FeedbackInDB.id := Some (ObjectId_str (FeedbackDoc._id doc));
     FeedbackInDB.name := FeedbackDoc.name doc;
     FeedbackInDB.email := FeedbackDoc.email doc;
     FeedbackInDB.feedback := FeedbackDoc.feedback doc;
     FeedbackInDB.time := datetime_of_bson (FeedbackDoc.time doc) |}.

Definition BookingInDB_validate (doc : BookingDoc.t) : BookingInDB.t :=
  {| BookingInDB.id := Some (ObjectId_str (BookingDoc._id doc));
     BookingInDB.name := BookingDoc.name doc;
     BookingInDB.email := BookingDoc.email doc;
     BookingInDB.start_time := datetime_of_bson (BookingDoc.start_time doc);
     BookingInDB.end_time := datetime_of_bson (BookingDoc.end_time doc);
     BookingInDB.topic := BookingDoc.topic doc |}.

(** The response to an exception that leaves the endpoint or a
    dependency: an [HTTPException] carries its status and detail, any
    other exception is answered with a bare 500. *)
Definition exception_handler {R} (e : exn) : response R :=
  match e with
  | HTTPException status detail => mk_response status (Detail detail)
  | _ => mk_response 500 InternalServerError
  end.

(** Running an endpoint function: a returned document is serialised
    through the response model with status 200 ([None] does not validate
    against the model), a returned [JSONResponse] is sent as it is. *)
Definition run_endpoint {D R} (response_model : D -> R) (endpoint : M (returned D))
    (env : Env) (db : Db) : response R * Db :=
  match endpoint env db with
  | (Return (Document (Some doc)), db') => (mk_response 200 (Model (response_model doc)), db')
  | (Return (Document None), db') => (mk_response 500 InternalServerError, db')
  | (Return (JSONResponse status content), db') => (mk_response status (Content content), db')
  | (Raise e, db') => (exception_handler e, db')
  end.

(** The four endpoint functions as FastAPI runs them once the request
    has passed the dependency and its parameters have validated. *)
Definition serve_create_feedback (feedback_in : FeedbackCreate.t) :=
  run_endpoint FeedbackInDB_validate (create_feedback feedback_in).

Definition serve_get_feedback (id : str) :=
  run_endpoint FeedbackInDB_validate (get_feedback id).

Definition serve_create_booking (booking : BookingCreate.t) :=
  run_endpoint BookingInDB_validate (create_booking booking).

Definition serve_get_booking (id : str) :=
  run_endpoint BookingInDB_validate (get_booking id).

(** A route declared with [dependencies=[Depends(verify_api_key)]], once
    the body, if the route has one, has been read (see [with_body]).
    The dependency is solved first.  Its parameter [x_api_key: str =
    Header(...)] is required: when the request has no [x-api-key] header
    the framework records a validation error, does not call
    [verify_api_key], and answers 422.  Otherwise [verify_api_key] runs
    and an exception it raises ends the request.  Then the endpoint's own
    parameters are validated ([None] stands for a parameter that does not
    validate) and the endpoint function is run. *)
Definition protected {P D R} (response_model : D -> R) (endpoint : P -> M (returned D))
    (x_api_key : option str) (parameter : option P) (env : Env) (db : Db)
    : response R * Db :=
  match x_api_key with
  | None => (mk_response 422 ValidationErrors, db)
  | Some key =>
      match verify_api_key key env db with
      | (Raise e, db') => (exception_handler e, db')
      | (Return _, db') =>
          match parameter with
          | None => (mk_response 422 ValidationErrors, db')
          | Some p => run_endpoint response_model (endpoint p) env db'
          end
      end
  end.

(** A decoded JSON value. *)
#[warnings="-register-all"] Inductive json :=
| JNull
| JBool (b : bool)
| JNumber (n : Z)
| JString (s : str)
| JArray (l : list json)
| JObject (o : gmap string json).

(** Pydantic's validation of a [str] field: only a JSON string is one. *)
Definition str_validate (v : json) : option str :=
  match v with JString s => Some s | _ => None end.

(** Validation of a request body against [FeedbackCreate]: the three
    fields are required, any other key of the object is ignored. *)
Definition FeedbackCreate_validate (request_body : json) : option FeedbackCreate.t :=
  match request_body with
  | JObject o =>
      name ← o !! "name" ≫= str_validate;
      email ← o !! "email" ≫= str_validate;
      feedback ← o !! "feedback" ≫= str_validate;
      Some (FeedbackCreate.mk name email feedback)
  | _ => None
  end.

(** What FastAPI has made of the body of a request when it comes to
    solve the dependencies of a route with a body parameter: nothing
    (the request has no body), the decoded JSON value, the bytes as
    they are (the content type is not a JSON one), or an exception
    while reading, either [json.JSONDecodeError] or another one. *)
Inductive received :=
| NoBody
| JsonBody (v : json)
| RawBody
| JsonDecodeError
| BodyReadError.

(** A protected route with a body parameter.  The body is read first:
    a [json.JSONDecodeError] is answered 422 and any other exception 400,
    before the key is looked at.  Then the route goes on as [protected],
    and only a decoded JSON value can validate against the model. *)
Definition with_body {P D R} (response_model : D -> R) (endpoint : P -> M (returned D))
    (validate : json -> option P) (x_api_key : option str) (request_body : received)
    (env : Env) (db : Db) : response R * Db :=
  match request_body with
  | JsonDecodeError => (mk_response 422 ValidationErrors, db)
  | BodyReadError =>
      (mk_response 400 (Detail (py "There was an error parsing the body")), db)
  | JsonBody v => protected response_model endpoint x_api_key (validate v) env db
  | NoBody | RawBody => protected response_model endpoint x_api_key None env db
  end.

Section routes.

(** Pydantic's validation of a [datetime] field (its parser of ISO 8601
    texts and of numeric timestamps). *)
Variable datetime_validate : json -> option datetime.

Definition BookingCreate_validate (request_body : json) : option BookingCreate.t :=
  match request_body with
  | JObject o =>
      name ← o !! "name" ≫= str_validate;
      email ← o !! "email" ≫= str_validate;
      start_time ← o !! "start_time" ≫= datetime_validate;
      end_time ← o !! "end_time" ≫= datetime_validate;
      topic ← o !! "topic" ≫= str_validate;
      Some (BookingCreate.mk name email start_time end_time topic)
  | _ => None
  end.

(** [GET /] *)
Definition GET_root : response unit := mk_response 200 (Content root).

(** [POST /feedback] *)
Definition POST_feedback (x_api_key : option str) (request_body : received) :=
  with_body FeedbackInDB_validate create_feedback FeedbackCreate_validate
    x_api_key request_body.

(** [GET /feedback/{id}] *)
Definition GET_feedback (x_api_key : option str) (id : str) :=
  protected FeedbackInDB_validate get_feedback x_api_key (Some id).

(** [POST /booking] *)
Definition POST_booking (x_api_key : option str) (request_body : received) :=
  with_body BookingInDB_validate create_booking BookingCreate_validate
    x_api_key request_body.

(** [GET /booking/{id}] *)
Definition GET_booking (x_api_key : option str) (id : str) :=
  protected BookingInDB_validate get_booking x_api_key (Some id).

End routes.

(** ** Vocabulary of the specification *)

(** A timezone-aware datetime. *)
Definition aware (d : datetime) : Prop := is_Some (tzinfo d).

(** The overlap of an existing booking with a requested one, on the
    instants: the existing one, as it is read back, starts before the
    requested end and ends after the requested start. *)
Definition overlaps (existing : BookingDoc.t) (booking : BookingCreate.t) : Prop :=
  utc_micros (datetime_of_bson (BookingDoc.start_time existing))
    < utc_micros (BookingCreate.end_time booking)
  /\ utc_micros (datetime_of_bson (BookingDoc.end_time existing))
       > utc_micros (BookingCreate.start_time booking).

(** The same with the requested instants cut to the millisecond, as
    the database compares them. *)
Definition overlaps_in_millis (existing : BookingDoc.t) (booking : BookingCreate.t)
    : Prop :=
  BookingDoc.start_time existing < bson_date (BookingCreate.end_time booking)
  /\ BookingDoc.end_time existing > bson_date (BookingCreate.start_time booking).


(** The request is well formed in time: aware instants, the start
    strictly before the end and not before the clock reading. *)
Definition orderly (booking : BookingCreate.t) (env : Env) : Prop :=
  aware (BookingCreate.start_time booking)
  /\ aware (BookingCreate.end_time booking)
  /\ utc_micros (BookingCreate.start_time booking) < utc_micros (BookingCreate.end_time booking)
  /\ clock env <= utc_micros (BookingCreate.start_time booking).

(** The hour fields are within office hours. *)
Definition within_office_hours (booking : BookingCreate.t) : Prop :=
  9 <= hour (BookingCreate.start_time booking)
  /\ hour (BookingCreate.end_time booking) <= 18.

(** The identifier generated for this request is not yet in use. *)
Definition fresh {D} (c : Collection D) (env : Env) (db : Db) : Prop :=
  forall d, d ∈ docs c db -> doc_id c d <> generated_id env.

(** The valid identifier format: twenty-four hexadecimal characters. *)
Definition valid_format (id : str) : Prop :=
  len id = 24%nat /\ Forall (fun c => is_hex c = true) id.

(** ** Sample data *)

Definition at_utc (day h m : Z) : datetime := mk_datetime day h m 0 0 (Some 0).

Definition oid_1 : ObjectId :=
  [# Byte.x65; Byte.x4a; Byte.x00; Byte.x00; Byte.x00; Byte.x00;
     Byte.x00; Byte.x00; Byte.x00; Byte.x00; Byte.x00; Byte.x01].

Definition oid_2 : ObjectId :=
  [# Byte.x65; Byte.x4a; Byte.x00; Byte.x00; Byte.x00; Byte.x00;
     Byte.x00; Byte.x00; Byte.x00; Byte.x00; Byte.x00; Byte.x02].

(** Midnight UTC of day 739000, the key [secret], and [oid_2] as the
    next generated identifier. *)
Definition sample_env : Env :=
  mk_Env (Some (py "secret")) (739000 * 86400000000) oid_2.

Definition empty_db : Db := mk_Db [] [] [].

(** One booking, 10:00 to 11:00 on day 739001. *)
Definition sample_db : Db :=
  mk_Db []
    [BookingDoc.mk oid_1 (py "Bob") (py "b@x.com") (bson_date (at_utc 739001 10 0))
       (bson_date (at_utc 739001 11 0)) (py "Review")]
    [].


Definition sample_booking (start_time end_time : datetime) : BookingCreate.t :=
  BookingCreate.mk (py "Alice") (py "a@x.com") start_time end_time (py "Planning").

Definition sample_feedback (text : string) : FeedbackCreate.t :=
  FeedbackCreate.mk (py "Alice") (py "a@x.com") (py text).

Definition sample_body (text : string) : received :=
  JsonBody (JObject (<["name" := JString (py "Alice")]>
                    (<["email" := JString (py "a@x.com")]>
                    (<["feedback" := JString (py text)]> ∅)))).

(** A validator for the samples: a number is read as a clock reading. *)
Definition sample_datetime_validate (v : json) : option datetime :=
  match v with JNumber n => Some (datetime_of_clock n) | _ => None end.

(** The body of a booking request from [start_time] to [end_time], given
    as clock readings. *)
Definition sample_booking_body (start_time end_time : Z) : received :=
  JsonBody (JObject (<["name" := JString (py "Alice")]>
                    (<["email" := JString (py "a@x.com")]>
                    (<["start_time" := JNumber start_time]>
                    (<["end_time" := JNumber end_time]>
                    (<["topic" := JString (py "Planning")]> ∅)))))).

(** The clock reading of hour [h] of day [day]. *)
Definition clock_at (day h : Z) : Z := (day * 24 + h) * 3600000000.

(** ** The application *)

(** A request as the router hands it to a route: the root route, or one
    of the four protected routes with the value of the [x-api-key]
    header, if the request has one, and its body as it has been read
    or its path parameter. *)
Inductive request :=
| Root
| PostFeedback (x_api_key : option str) (request_body : received)
| GetFeedback (x_api_key : option str) (id : str)
| PostBooking (x_api_key : option str) (request_body : received)
| GetBooking (x_api_key : option str) (id : str).

(** The status of an answer and the database it leaves. *)
Definition outcome {R} (served : response R * Db) : Z * Db :=
  (status_code (fst served), snd served).

(** The application [app]: each request goes to its route. *)
Definition app (datetime_validate : json -> option datetime) (req : request)
    (env : Env) (db : Db) : Z * Db :=
  match req with
  | Root => (status_code GET_root, db)
  | PostFeedback x_api_key request_body =>
      outcome (POST_feedback x_api_key request_body env db)
  | GetFeedback x_api_key id => outcome (GET_feedback x_api_key id env db)
  | PostBooking x_api_key request_body =>
      outcome (POST_booking datetime_validate x_api_key request_body env db)
  | GetBooking x_api_key id => outcome (GET_booking x_api_key id env db)
  end.

(** A sequence of requests served in turn, each with what it reads from
    outside the program. *)
Fixpoint serve_all (datetime_validate : json -> option datetime)
    (requests : list (request * Env)) (db : Db) : Db :=
  match requests with
  | [] => db
  | (req, env) :: rest =>
      serve_all datetime_validate rest (snd (app datetime_validate req env db))
  end.

(** ** Conditions on the stored data *)

(** Two stored bookings whose time ranges meet. *)
Definition conflict (a b : BookingDoc.t) : Prop :=
  BookingDoc.start_time a < BookingDoc.end_time b
  /\ BookingDoc.end_time a > BookingDoc.start_time b.

(** No two documents of the collection, at different positions, meet. *)
Definition conflict_free (collection : list BookingDoc.t) : Prop :=
  forall (i j : nat) (a b : BookingDoc.t),
    i <> j -> collection !! i = Some a -> collection !! j = Some b -> ~ conflict a b.

(** A stored booking that does not end before it starts. *)
Definition regular_booking (d : BookingDoc.t) : Prop :=
  BookingDoc.start_time d <= BookingDoc.end_time d.

(** A stored feedback whose text is long enough. *)
Definition regular_feedback (d : FeedbackDoc.t) : Prop :=
  (10 <= len (strip (FeedbackDoc.feedback d)))%nat.

(** The identifiers of a collection are pairwise distinct. *)
Definition unique_ids {D} (c : Collection D) (db : Db) : Prop :=
  NoDup (map (doc_id c) (docs c db)).

(** A text made of whitespace only. *)
Definition blank (s : str) : Prop := Forall (fun c => isspace c = true) s.

(** Three requests: a booking for 10:30 to 11:30 on day 739001, one for
    11:00 to 12:00, and a feedback. *)
Definition sample_requests : list (request * Env) :=
  [(PostBooking (Some (py "secret"))
      (sample_booking_body (clock_at 739001 10 + 1800000000) (clock_at 739001 11 + 1800000000)),
    sample_env);
   (PostBooking (Some (py "secret"))
      (sample_booking_body (clock_at 739001 11) (clock_at 739001 12)),
    sample_env);
   (PostFeedback (Some (py "secret")) (sample_body "This is more than ten characters"),
    mk_Env (Some (py "secret")) (739000 * 86400000000) oid_1)].

(** ** Proof automation *)

(** Unfolds the handlers and the monad down to case analyses. *)
Ltac run :=
  unfold serve_create_feedback, serve_get_feedback, serve_create_booking,
    serve_get_booking, run_endpoint, protected, create_feedback, get_feedback,
    create_booking, get_booking, verify_api_key, datetime_now_utc, dt_lt, dt_ge,
    insert_one, find_one, ask, raise, mbind, M_bind, mret, M_ret in *.

(** * Properties *)

(** ** Text *)

Lemma count_nonspace_le (s : str) : (count_nonspace s <= len s)%nat.
Proof. unfold count_nonspace, len. apply List.filter_length_le. Qed.

Lemma lstrip_length (s : str) : (length (lstrip s) <= length s)%nat.
Proof. induction s as [|c s IH]; simpl; [lia|]. destruct (isspace c); simpl; lia. Qed.

Lemma strip_length (s : str) : (len (strip s) <= len s)%nat.
Proof.
  unfold strip, rstrip, len. rewrite length_rev.
  etransitivity; [apply lstrip_length|]. rewrite length_rev. apply lstrip_length.
Qed.

(** ** Object identifiers *)

Lemma unhex_bound (c : char) (n : N) : unhex c = Some n -> (n < 16)%N.
Proof.
  unfold unhex. repeat case_match; intros [= <-];
    repeat match goal with
    | H : (_ && _) = true |- _ => apply andb_prop in H as [?%N.leb_le ?%N.leb_le]
    end; lia.
Qed.

Lemma fromhex_hexlify (b : Byte.byte) (s : str) :
  fromhex (hexlify b ++ s) = bs ← fromhex s; Some (b :: bs).
Proof. destruct b; reflexivity. Qed.

Lemma fromhex_hexlify_all (l : list Byte.byte) :
  fromhex (concat (map hexlify l)) = Some l.
Proof.
  induction l as [|b l IH]; [done|]. cbn [map concat].
  rewrite fromhex_hexlify, IH. done.
Qed.

Lemma vec_of_list_to_list {A n} (v : vec A n) : vec_of_list n (vec_to_list v) = Some v.
Proof. induction v as [|x n v IH]; [done|]. cbn. rewrite IH. done. Qed.

Lemma vec_of_list_length {A} (n : nat) (l : list A) :
  is_Some (vec_of_list n l) <-> length l = n.
Proof.
  revert l. induction n as [|n IH]; intros [|x l]; cbn.
  - split; eauto.
  - split; [intros [? [=]]|done].
  - split; [intros [? [=]]|done].
  - specialize (IH l). destruct (vec_of_list n l) as [v|]; cbn.
    + split; [intros _; f_equal; apply IH; eauto | eauto].
    + split; [intros [? [=]] | intros [= H]; apply IH in H as [? [=]]].
Qed.

Lemma ObjectId_str_length (oid : ObjectId) : len (ObjectId_str oid) = 24%nat.
Proof.
  unfold ObjectId_str, len.
  assert (forall l : list Byte.byte, length (concat (map hexlify l)) = (2 * length l)%nat) as H.
  { induction l as [|b l IH]; [done|]. cbn [map concat]. rewrite length_app, IH. cbn. lia. }
  rewrite H, length_vec_to_list. done.
Qed.

(** Parsing the text of an identifier gives the identifier back. *)
Lemma ObjectId_of_str_str (oid : ObjectId) : ObjectId_of_str (ObjectId_str oid) = Some oid.
Proof.
  unfold ObjectId_of_str. rewrite ObjectId_str_length. cbn [Nat.eqb].
  unfold ObjectId_str. rewrite fromhex_hexlify_all. cbn [mbind option_bind].
  apply vec_of_list_to_list.
Qed.

Lemma ObjectId_is_valid_str (oid : ObjectId) : ObjectId_is_valid (ObjectId_str oid) = true.
Proof.
  unfold ObjectId_is_valid. rewrite ObjectId_of_str_str. apply bool_decide_eq_true. eauto.
Qed.

Lemma fromhex_is_hex (n : nat) (s : str) :
  length s = (2 * n)%nat -> Forall (fun c => is_hex c = true) s ->
  exists bs, fromhex s = Some bs /\ length bs = n.
Proof.
  revert s. induction n as [|n IH]; intros s Hlen Hhex.
  - destruct s; [|done]. exists []. done.
  - destruct s as [|hi [|lo s]]; [done|cbn in Hlen; lia|].
    inversion Hhex as [|? ? Hhi Hhex']; subst. inversion Hhex' as [|? ? Hlo Hs]; subst.
    apply bool_decide_eq_true in Hhi as [h Hh]. apply bool_decide_eq_true in Hlo as [l Hl].
    destruct (IH s) as (bs & Hbs & Hn); [cbn in Hlen; lia|done|].
    pose proof (unhex_bound _ _ Hh). pose proof (unhex_bound _ _ Hl).
    destruct (Strings.Byte.of_N (16 * h + l)) as [b|] eqn:Hb.
    + exists (b :: bs). cbn [fromhex]. rewrite Hh, Hl. cbn. rewrite Hb. cbn. rewrite Hbs.
      cbn. split; [done|lia].
    + apply Strings.Byte.of_N_None_iff in Hb. lia.
Qed.

Lemma fromhex_Some (s : str) (bs : list Byte.byte) :
  fromhex s = Some bs -> Forall (fun c => is_hex c = true) s /\ length s = (2 * length bs)%nat.
Proof.
  remember (length s) as k eqn:Hk. revert s bs Hk.
  induction k as [k IH] using lt_wf_ind. intros s bs Hk H.
  destruct s as [|hi [|lo s]]; [injection H as <-; done|done|].
  cbn [fromhex] in H.
  destruct (unhex hi) as [h|] eqn:Hh; [|done]. destruct (unhex lo) as [l|] eqn:Hl; [|done].
  cbn in H. destruct (Strings.Byte.of_N (16 * h + l)) as [b|]; [|done]. cbn in H.
  destruct (fromhex s) as [bs'|] eqn:Hs; [|done]. injection H as <-.
  destruct (IH (length s)) with (s := s) (bs := bs') as [Hhex Hlen];
    [subst k; cbn; lia|done|done|].
  split.
  - repeat constructor; try done; apply bool_decide_eq_true; unfold is_hex; rewrite ?Hh, ?Hl; eauto.
  - subst k. cbn [length] in *. lia.
Qed.

(** The identifiers the constructor accepts are the texts of exactly
    twenty-four hexadecimal characters. *)
Lemma ObjectId_is_valid_format (id : str) :
  ObjectId_is_valid id = true <-> len id = 24%nat /\ Forall (fun c => is_hex c = true) id.
Proof.
  unfold ObjectId_is_valid, ObjectId_of_str. rewrite bool_decide_eq_true.
  destruct (Nat.eqb_spec (len id) 24) as [Hlen|Hlen].
  - split.
    + intros [oid H]. destruct (fromhex id) as [bs|] eqn:Hbs; [|done].
      apply fromhex_Some in Hbs as [? ?]. done.
    + intros [_ Hhex]. destruct (fromhex_is_hex 12 id) as (bs & -> & Hn); [done|done|].
      cbn [mbind option_bind]. apply vec_of_list_length. done.
  - split; [intros [? [=]] | intros [? _]; done].
Qed.

(** ** Collections *)

Lemma find_first {A} (f : A -> bool) (l : list A) (x : A) :
  List.find f l = Some x <->
  exists before after,
    l = before ++ x :: after /\ f x = true /\ forall y, y ∈ before -> f y = false.
Proof.
  induction l as [|a l IH]; cbn.
  - split; [done|]. intros (before & after & H & _). by destruct before.
  - destruct (f a) eqn:Hfa.
    + split.
      * intros [= ->]. exists [], l. repeat split; [done|]. intros y Hy. inversion Hy.
      * intros ([|b before] & after & H & Hx & Hbefore); cbn in H; simplify_eq; [done|].
        rewrite Hbefore in Hfa; [done|]. left.
    + rewrite IH. split.
      * intros (before & after & -> & Hx & Hbefore). exists (a :: before), after.
        repeat split; [done|]. intros y [->|Hy]%elem_of_cons; eauto.
      * intros ([|b before] & after & H & Hx & Hbefore); cbn in H; simplify_eq; [congruence|].
        exists before, after. repeat split; [done|]. intros y Hy. apply Hbefore. by right.
Qed.

Lemma find_none_iff {A} (f : A -> bool) (l : list A) :
  List.find f l = None <-> forall y, y ∈ l -> f y = false.
Proof.
  induction l as [|a l IH]; cbn.
  - split; [|done]. intros _ y Hy. inversion Hy.
  - destruct (f a) eqn:Hfa.
    + split; [done|]. intros H. rewrite H in Hfa; [done|left].
    + rewrite IH. split.
      * intros H y [->|Hy]%elem_of_cons; eauto.
      * intros H y Hy. apply H. by right.
Qed.

(** A document appended under an identifier that was not in use is the
    one a lookup by that identifier finds. *)
Lemma find_inserted {D} (c : Collection D) (l : list D) (d : D) :
  existsb (by_id c (doc_id c d)) l = false ->
  List.find (by_id c (doc_id c d)) (l ++ [d]) = Some d.
Proof.
  intros Hfresh. induction l as [|a l IH]; cbn in *.
  - unfold by_id. rewrite bool_decide_eq_true_2; done.
  - apply orb_false_iff in Hfresh as [Ha Hl]. rewrite Ha. eauto.
Qed.

Lemma existsb_by_id_fresh {D} (c : Collection D) (oid : ObjectId) (l : list D) :
  existsb (by_id c oid) l = false <-> forall d, d ∈ l -> doc_id c d <> oid.
Proof.
  induction l as [|a l IH]; cbn.
  - split; [|done]. intros _ d Hd. inversion Hd.
  - rewrite orb_false_iff, IH. unfold by_id at 1. rewrite bool_decide_eq_false. split.
    + intros [Ha Hl] d [->|Hd]%elem_of_cons; eauto.
    + intros H. split; [apply H; left | intros d Hd; apply H; by right].
Qed.

(** ** Running handlers *)

Lemma utc_micros_now (t : Z) : utc_micros (datetime_of_clock t) = t.
Proof.
  unfold utc_micros, datetime_of_clock. cbn.
  Z.to_euclidean_division_equations; lia.
Qed.

Lemma utc_micros_of_bson (ms : Z) : utc_micros (datetime_of_bson ms) = ms * 1000.
Proof.
  unfold utc_micros, datetime_of_bson. cbn.
  Z.to_euclidean_division_equations; lia.
Qed.

Lemma bson_date_now (t : Z) : bson_date (datetime_of_clock t) = t / 1000.
Proof. unfold bson_date. by rewrite utc_micros_now. Qed.

Lemma bson_date_of_bson (ms : Z) : bson_date (datetime_of_bson ms) = ms.
Proof. unfold bson_date. rewrite utc_micros_of_bson. by apply Z.div_mul. Qed.

(** Cutting an instant to the millisecond moves it back by less than a
    millisecond. *)
Lemma bson_date_bounds (d : datetime) :
  bson_date d * 1000 <= utc_micros d < bson_date d * 1000 + 1000.
Proof. unfold bson_date. Z.to_euclidean_division_equations; lia. Qed.

Lemma comparable_aware (a b : datetime) : aware a -> aware b -> comparable a b = true.
Proof. intros Ha Hb. apply bool_decide_eq_true. done. Qed.

Lemma aware_now (t : Z) : aware (datetime_of_clock t).
Proof. unfold aware. cbn. eauto. Qed.

(** The answer of a protected route, case by case. *)
Lemma protected_cases {P D R} (response_model : D -> R)
    (endpoint : P -> M (returned D)) (x_api_key : option str) (parameter : option P)
    (env : Env) (db : Db) :
  protected response_model endpoint x_api_key parameter env db =
  match x_api_key with
  | None => (mk_response 422 ValidationErrors, db)
  | Some key =>
      if bool_decide (Some key ≠ API_KEY env)
      then (mk_response 401 (Detail (py "Invalid or missing API Key")), db)
      else match parameter with
           | None => (mk_response 422 ValidationErrors, db)
           | Some p => run_endpoint response_model (endpoint p) env db
           end
  end.
Proof.
  unfold protected, verify_api_key, ask, raise, mbind, M_bind, mret, M_ret.
  destruct x_api_key as [key|]; [|done]. by destruct (bool_decide _).
Qed.

(** A request that passed the dependency and validated is answered by
    the endpoint function. *)
Lemma protected_authorized {P D R} (response_model : D -> R)
    (endpoint : P -> M (returned D)) (key : str) (p : P) (env : Env) (db : Db) :
  API_KEY env = Some key ->
  protected response_model endpoint (Some key) (Some p) env db
  = run_endpoint response_model (endpoint p) env db.
Proof.
  intros Hkey. unfold protected, verify_api_key, ask, mbind, M_bind.
  rewrite Hkey. rewrite bool_decide_eq_false_2; [done|]. intros H. done.
Qed.

(** A request whose key differs from the configured one is answered 401
    whatever its parameters are. *)
Lemma protected_unauthorized {P D R} (response_model : D -> R)
    (endpoint : P -> M (returned D)) (key : str) (p : option P) (env : Env) (db : Db) :
  Some key <> API_KEY env ->
  protected response_model endpoint (Some key) p env db
  = (mk_response 401 (Detail (py "Invalid or missing API Key")), db).
Proof.
  intros Hkey. unfold protected, verify_api_key, ask, mbind, M_bind.
  rewrite bool_decide_eq_true_2; done.
Qed.

(** The answer of a protected route with a body, case by case. *)
Lemma with_body_cases {P D R} (response_model : D -> R) (endpoint : P -> M (returned D))
    (validate : json -> option P) (x_api_key : option str) (request_body : received)
    (env : Env) (db : Db) :
  with_body response_model endpoint validate x_api_key request_body env db =
  match request_body with
  | JsonDecodeError => (mk_response 422 ValidationErrors, db)
  | BodyReadError =>
      (mk_response 400 (Detail (py "There was an error parsing the body")), db)
  | _ =>
      match x_api_key with
      | None => (mk_response 422 ValidationErrors, db)
      | Some key =>
          if bool_decide (Some key ≠ API_KEY env)
          then (mk_response 401 (Detail (py "Invalid or missing API Key")), db)
          else match match request_body with JsonBody v => validate v | _ => None end with
               | None => (mk_response 422 ValidationErrors, db)
               | Some p => run_endpoint response_model (endpoint p) env db
               end
      end
  end.
Proof. unfold with_body. destruct request_body; by rewrite ?protected_cases. Qed.

(** The answer to a feedback submission, step by step. *)
Lemma serve_create_feedback_unfold (feedback_in : FeedbackCreate.t) (env : Env) (db : Db) :
  serve_create_feedback feedback_in env db =
  if (len (strip (FeedbackCreate.feedback feedback_in)) <? 10)%nat
  then (mk_response 400 (Detail (py "Feedback too short.")), db)
  else if existsb (by_id db_feedback (generated_id env)) (feedback db)
  then (mk_response 500 InternalServerError, called (InsertOne "feedback") db)
  else (mk_response 200
          (Model (FeedbackInDB_validate
                    (feedback_data feedback_in (datetime_of_clock (clock env))
                       (generated_id env)))),
        mk_Db (feedback db
               ++ [feedback_data feedback_in (datetime_of_clock (clock env))
                     (generated_id env)])
          (bookings db)
          (FindOne "feedback" :: InsertOne "feedback" :: calls db)).
Proof.
  run. destruct (_ <? _)%nat; [done|].
  destruct db as [fb bk cs]. unfold called. cbn.
  destruct (existsb _ fb) eqn:Hfresh; [done|]. cbn.
  pose proof (find_inserted db_feedback fb
                (feedback_data feedback_in (datetime_of_clock (clock env))
                   (generated_id env)) Hfresh) as Hfind.
  cbn in Hfind. rewrite Hfind. done.
Qed.

(** The answers to the two lookups by identifier. *)
Lemma serve_get_feedback_unfold (id : str) (env : Env) (db : Db) :
  serve_get_feedback id env db =
  match ObjectId_of_str id with
  | None => (mk_response 400 (Detail (py "Invalid ID format")), db)
  | Some oid =>
      match List.find (by_id db_feedback oid) (feedback db) with
      | None => (mk_response 404 (Detail (py "Not found")), called (FindOne "feedback") db)
      | Some doc =>
          (mk_response 200 (Model (FeedbackInDB_validate doc)),
           called (FindOne "feedback") db)
      end
  end.
Proof.
  run. unfold ObjectId_is_valid.
  destruct (ObjectId_of_str id) as [oid|].
  - rewrite bool_decide_eq_true_2 by eauto. cbn.
    by destruct (List.find _ _).
  - rewrite bool_decide_eq_false_2; [done|]. by intros [? ?].
Qed.

Lemma serve_get_booking_unfold (id : str) (env : Env) (db : Db) :
  serve_get_booking id env db =
  match ObjectId_of_str id with
  | None => (mk_response 400 (Content (failed (py "Invalid ID format"))), db)
  | Some oid =>
      match List.find (by_id db_bookings oid) (bookings db) with
      | None => (mk_response 404 (Detail (py "Not found")), called (FindOne "bookings") db)
      | Some doc =>
          (mk_response 200 (Model (BookingInDB_validate doc)),
           called (FindOne "bookings") db)
      end
  end.
Proof.
  run. unfold ObjectId_is_valid.
  destruct (ObjectId_of_str id) as [oid|].
  - rewrite bool_decide_eq_true_2 by eauto. cbn.
    by destruct (List.find _ _).
  - rewrite bool_decide_eq_false_2; [done|]. by intros [? ?].
Qed.

(** The answer to a booking request, step by step. *)
Lemma serve_create_booking_unfold (booking : BookingCreate.t) (env : Env) (db : Db) :
  serve_create_booking booking env db =
  if negb (comparable (BookingCreate.start_time booking) (BookingCreate.end_time booking))
  then (mk_response 500 InternalServerError, db)
  else if utc_micros (BookingCreate.end_time booking)
          <=? utc_micros (BookingCreate.start_time booking)
  then (mk_response 400 (Content (failed (py "Start time must be before end time."))), db)
  else if negb (comparable (BookingCreate.start_time booking)
                  (datetime_of_clock (clock env)))
  then (mk_response 500 InternalServerError, db)
  else if utc_micros (BookingCreate.start_time booking) <? clock env
  then (mk_response 400 (Content (failed (py "Cannot create a booking in the past."))), db)
  else if (hour (BookingCreate.start_time booking) <? 9)
          || (hour (BookingCreate.end_time booking) >? 18)
  then (mk_response 400
          (Content (failed (py "Cannot create a booking outside office hours."))), db)
  else
    match List.find (overlap_query booking) (bookings db) with
    | Some existing =>
        (mk_response 409
           (Content (failed (py "Time slot unavailable. Overlaps with booking ID: "
                             ++ ObjectId_str (BookingDoc._id existing)))),
         called (FindOne "bookings") db)
    | None =>
        if existsb (by_id db_bookings (generated_id env)) (bookings db)
        then (mk_response 500 InternalServerError,
              called (InsertOne "bookings") (called (FindOne "bookings") db))
        else (mk_response 200
                (Model (BookingInDB_validate (new_booking booking (generated_id env)))),
              mk_Db (feedback db)
                (bookings db ++ [new_booking booking (generated_id env)])
                (FindOne "bookings" :: InsertOne "bookings" :: FindOne "bookings"
                 :: calls db))
    end.
Proof.
  run. destruct (comparable _ (BookingCreate.end_time booking)); [|done]. cbn.
  destruct (_ <=? _); [done|]. cbn.
  destruct (comparable _ (datetime_of_clock _)); [|done]. cbn.
  rewrite utc_micros_now.
  destruct (_ <? clock env); [done|].
  destruct (_ || _); [done|]. cbn.
  destruct (List.find (overlap_query booking) (bookings db)) as [existing|]; [done|].
  destruct db as [fb bk cs]. unfold called. cbn.
  destruct (existsb _ bk) eqn:Hfresh; [done|]. cbn.
  pose proof (find_inserted db_bookings bk
                (new_booking booking (generated_id env)) Hfresh) as Hfind.
  cbn in Hfind. rewrite Hfind. done.
Qed.

(** The answer to a booking request with aware instants, check by check. *)
Lemma serve_create_booking_eq (booking : BookingCreate.t) (env : Env) (db : Db) :
  aware (BookingCreate.start_time booking) ->
  aware (BookingCreate.end_time booking) ->
  serve_create_booking booking env db =
  if utc_micros (BookingCreate.end_time booking) <=? utc_micros (BookingCreate.start_time booking)
  then (mk_response 400 (Content (failed (py "Start time must be before end time."))), db)
  else if utc_micros (BookingCreate.start_time booking) <? clock env
  then (mk_response 400 (Content (failed (py "Cannot create a booking in the past."))), db)
  else if (hour (BookingCreate.start_time booking) <? 9)
          || (hour (BookingCreate.end_time booking) >? 18)
  then (mk_response 400
          (Content (failed (py "Cannot create a booking outside office hours."))), db)
  else
    match List.find (overlap_query booking) (bookings db) with
    | Some existing =>
        (mk_response 409
           (Content (failed (py "Time slot unavailable. Overlaps with booking ID: "
                             ++ ObjectId_str (BookingDoc._id existing)))),
         called (FindOne "bookings") db)
    | None =>
        if existsb (by_id db_bookings (generated_id env)) (bookings db)
        then (mk_response 500 InternalServerError,
              called (InsertOne "bookings") (called (FindOne "bookings") db))
        else (mk_response 200
                (Model (BookingInDB_validate (new_booking booking (generated_id env)))),
              mk_Db (feedback db)
                (bookings db ++ [new_booking booking (generated_id env)])
                (FindOne "bookings" :: InsertOne "bookings" :: FindOne "bookings"
                 :: calls db))
    end.
Proof.
  intros Hs He. rewrite serve_create_booking_unfold.
  rewrite (comparable_aware _ _ Hs He).
  rewrite (comparable_aware _ _ Hs (aware_now (clock env))). done.
Qed.

(** ** The API key *)

(** A key that is present and differs from the configured one is
    answered 401 on the four protected routes, whatever the path
    parameter or the body that has been read is, and the database is
    left alone. *)
Lemma wrong_api_key (datetime_validate : json -> option datetime)
    (key : str) (request_body : received) (id : str) (env : Env) (db : Db) :
  Some key <> API_KEY env ->
  request_body <> JsonDecodeError -> request_body <> BodyReadError ->
  POST_feedback (Some key) request_body env db
  = (mk_response 401 (Detail (py "Invalid or missing API Key")), db)
  /\ GET_feedback (Some key) id env db
     = (mk_response 401 (Detail (py "Invalid or missing API Key")), db)
  /\ POST_booking datetime_validate (Some key) request_body env db
     = (mk_response 401 (Detail (py "Invalid or missing API Key")), db)
  /\ GET_booking (Some key) id env db
     = (mk_response 401 (Detail (py "Invalid or missing API Key")), db).
Proof.
  intros Hkey Hjson Hread.
  unfold POST_feedback, GET_feedback, POST_booking, GET_booking, with_body.
  destruct request_body; try done; repeat split; by apply protected_unauthorized.
Qed.

(** C2, at the input where the code departs from it: a request without
    the [x-api-key] header is answered 422 on each of the four protected
    routes, because the header is a required parameter of the dependency
    and [verify_api_key] is never called for it (on the two routes with
    a body, a body that cannot be read at all is answered 400 before
    that). *)
Theorem missing_api_key_header (datetime_validate : json -> option datetime)
    (request_body : received) (id : str) (env : Env) (db : Db) :
  POST_feedback None request_body env db
  = match request_body with
    | BodyReadError =>
        (mk_response 400 (Detail (py "There was an error parsing the body")), db)
    | _ => (mk_response 422 ValidationErrors, db)
    end
  /\ GET_feedback None id env db = (mk_response 422 ValidationErrors, db)
  /\ POST_booking datetime_validate None request_body env db
     = match request_body with
       | BodyReadError =>
           (mk_response 400 (Detail (py "There was an error parsing the body")), db)
       | _ => (mk_response 422 ValidationErrors, db)
       end
  /\ GET_booking None id env db = (mk_response 422 ValidationErrors, db).
Proof. by destruct request_body. Qed.

(** ** Feedback *)

(** C1, as the code has it: a feedback text with fewer than ten
    characters after trimming is answered 400 "Feedback too short."
    and nothing is inserted (no database operation is issued at all);
    the count is of all characters, inner whitespace included.  A text
    with at least ten characters after trimming passes the validation,
    in particular one with at least ten non-whitespace characters. *)
Theorem feedback_length_validation (feedback_in : FeedbackCreate.t) (env : Env) (db : Db) :
  ((len (strip (FeedbackCreate.feedback feedback_in)) < 10)%nat ->
     serve_create_feedback feedback_in env db
     = (mk_response 400 (Detail (py "Feedback too short.")), db))
  /\ ((10 <= len (strip (FeedbackCreate.feedback feedback_in)))%nat ->
     status_code (fst (serve_create_feedback feedback_in env db)) <> 400)
  /\ ((10 <= count_nonspace (strip (FeedbackCreate.feedback feedback_in)))%nat ->
     status_code (fst (serve_create_feedback feedback_in env db)) <> 400).
Proof.
  set (text := strip (FeedbackCreate.feedback feedback_in)).
  assert ((10 <= len text)%nat ->
          status_code (fst (serve_create_feedback feedback_in env db)) <> 400) as Hpass.
  { intros Hlen. run. fold text.
    destruct (Nat.ltb_spec (len text) 10); [lia|].
    repeat case_match; simplify_eq; cbn; done. }
  split; [|split; [done|]].
  - intros Hlen. run. fold text.
    destruct (Nat.ltb_spec (len text) 10); [done|lia].
  - intros Hn. apply Hpass. pose proof (count_nonspace_le text). lia.
Qed.

Lemma feedback_length_validation_witness :
  serve_create_feedback (sample_feedback "too short") sample_env empty_db
  = (mk_response 400 (Detail (py "Feedback too short.")), empty_db).
Proof.
  apply (proj1 (feedback_length_validation (sample_feedback "too short") sample_env empty_db)).
  vm_compute. lia.
Defined.

(** C1 as stated fails: "a b c d e f" has six non-whitespace characters
    after trimming, and is accepted and stored. *)
Lemma feedback_inner_whitespace_accepted :
  (count_nonspace (strip (FeedbackCreate.feedback (sample_feedback "a b c d e f"))) < 10)%nat
  /\ status_code (fst (serve_create_feedback (sample_feedback "a b c d e f")
                         sample_env empty_db)) = 200
  /\ feedback (snd (serve_create_feedback (sample_feedback "a b c d e f")
                      sample_env empty_db))
     = [feedback_data (sample_feedback "a b c d e f")
          (datetime_of_clock (clock sample_env)) oid_2].
Proof. split; [vm_compute; lia|]. split; vm_compute; reflexivity. Qed.

(** ** Bookings *)

Lemma overlap_query_spec (booking : BookingCreate.t) (existing : BookingDoc.t) :
  overlap_query booking existing = true <-> overlaps_in_millis existing booking.
Proof.
  unfold overlap_query, overlaps_in_millis. rewrite andb_true_iff, Z.ltb_lt, Z.gtb_gt. done.
Qed.

Lemma overlap_query_false (booking : BookingCreate.t) (existing : BookingDoc.t) :
  overlap_query booking existing = false <-> ~ overlaps_in_millis existing booking.
Proof. rewrite <- overlap_query_spec. by destruct (overlap_query booking existing). Qed.

(** What the database finds overlapping overlaps on the instants: the
    cut moves the requested end back, never forward, and does not change
    the comparison with the requested start. *)
Lemma overlaps_in_millis_instants (existing : BookingDoc.t) (booking : BookingCreate.t) :
  overlaps_in_millis existing booking
  <-> utc_micros (datetime_of_bson (BookingDoc.start_time existing))
        < bson_date (BookingCreate.end_time booking) * 1000
      /\ utc_micros (datetime_of_bson (BookingDoc.end_time existing))
           > utc_micros (BookingCreate.start_time booking).
Proof.
  unfold overlaps_in_millis. rewrite !utc_micros_of_bson.
  pose proof (bson_date_bounds (BookingCreate.start_time booking)). lia.
Qed.

Lemma overlaps_in_millis_overlaps (existing : BookingDoc.t) (booking : BookingCreate.t) :
  overlaps_in_millis existing booking -> overlaps existing booking.
Proof.
  rewrite overlaps_in_millis_instants. unfold overlaps.
  pose proof (bson_date_bounds (BookingCreate.end_time booking)). lia.
Qed.


(** Once the three logic checks have passed, the answer is decided by
    the overlap query and the insertion. *)
Lemma serve_create_booking_checked (booking : BookingCreate.t) (env : Env) (db : Db) :
  orderly booking env -> within_office_hours booking ->
  serve_create_booking booking env db =
  match List.find (overlap_query booking) (bookings db) with
  | Some existing =>
      (mk_response 409
         (Content (failed (py "Time slot unavailable. Overlaps with booking ID: "
                           ++ ObjectId_str (BookingDoc._id existing)))),
       called (FindOne "bookings") db)
  | None =>
      if existsb (by_id db_bookings (generated_id env)) (bookings db)
      then (mk_response 500 InternalServerError,
            called (InsertOne "bookings") (called (FindOne "bookings") db))
      else (mk_response 200
              (Model (BookingInDB_validate (new_booking booking (generated_id env)))),
            mk_Db (feedback db)
              (bookings db ++ [new_booking booking (generated_id env)])
              (FindOne "bookings" :: InsertOne "bookings" :: FindOne "bookings"
               :: calls db))
  end.
Proof.
  intros (Hs & He & Horder & Hnow) [Hstart Hend].
  rewrite serve_create_booking_eq by done.
  destruct (Z.leb_spec (utc_micros (BookingCreate.end_time booking))
              (utc_micros (BookingCreate.start_time booking))); [lia|].
  destruct (Z.ltb_spec (utc_micros (BookingCreate.start_time booking)) (clock env)); [lia|].
  destruct (Z.ltb_spec (hour (BookingCreate.start_time booking)) 9); [lia|].
  destruct (Z.gtb_spec (hour (BookingCreate.end_time booking)) 18); [lia|].
  done.
Qed.




(** C4: for a request that reaches the office-hours check, the answer
    is 400 "Cannot create a booking outside office hours." exactly when
    the start's hour field is below 9 or the end's hour field is above
    18; the database is then left alone.  Only the two hour fields
    matter: two requests that reach the check with the same hour fields
    are rejected together or not at all, whatever their minutes. *)
Theorem office_hours_check (booking : BookingCreate.t) (env : Env) (db : Db) :
  orderly booking env ->
  (hour (BookingCreate.start_time booking) < 9
   \/ hour (BookingCreate.end_time booking) > 18 ->
   serve_create_booking booking env db
   = (mk_response 400
        (Content (failed (py "Cannot create a booking outside office hours."))), db))
  /\ (fst (serve_create_booking booking env db)
      = mk_response 400
          (Content (failed (py "Cannot create a booking outside office hours."))) ->
      hour (BookingCreate.start_time booking) < 9
      \/ hour (BookingCreate.end_time booking) > 18)
  /\ (forall other : BookingCreate.t,
        orderly other env ->
        hour (BookingCreate.start_time other) = hour (BookingCreate.start_time booking) ->
        hour (BookingCreate.end_time other) = hour (BookingCreate.end_time booking) ->
        (fst (serve_create_booking other env db)
         = mk_response 400
             (Content (failed (py "Cannot create a booking outside office hours.")))
         <-> fst (serve_create_booking booking env db)
             = mk_response 400
                 (Content (failed (py "Cannot create a booking outside office hours."))))).
Proof.
  assert (forall b : BookingCreate.t, orderly b env ->
            (hour (BookingCreate.start_time b) < 9
             \/ hour (BookingCreate.end_time b) > 18 ->
             serve_create_booking b env db
             = (mk_response 400
                  (Content (failed (py "Cannot create a booking outside office hours."))),
                db))
            /\ (fst (serve_create_booking b env db)
                = mk_response 400
                    (Content (failed (py "Cannot create a booking outside office hours."))) ->
                hour (BookingCreate.start_time b) < 9
                \/ hour (BookingCreate.end_time b) > 18)) as Hiff.
  { intros b (Hs & He & Horder & Hnow).
    rewrite serve_create_booking_eq by done.
    destruct (Z.leb_spec (utc_micros (BookingCreate.end_time b))
                (utc_micros (BookingCreate.start_time b))); [lia|].
    destruct (Z.ltb_spec (utc_micros (BookingCreate.start_time b)) (clock env)); [lia|].
    destruct (Z.ltb_spec (hour (BookingCreate.start_time b)) 9);
      destruct (Z.gtb_spec (hour (BookingCreate.end_time b)) 18); cbn [orb];
      try (split; [done | intros _; lia]).
    split; [lia|]. repeat case_match; cbn; intros [=]. }
  intros Horderly. destruct (Hiff booking Horderly) as [Hto Hfrom].
  split; [done|split; [done|]].
  intros other Hother Hstart Hend. destruct (Hiff other Hother) as [Hto' Hfrom'].
  split; intros H.
  - apply Hfrom' in H. rewrite Hstart, Hend in H. by rewrite Hto.
  - apply Hfrom in H. rewrite <- Hstart, <- Hend in H. by rewrite Hto'.
Qed.

(** A booking from 17:00 to 18:45 reaches the check and is not rejected
    by it; one from 08:00 to 10:00 is. *)
Lemma office_hours_check_witness :
  (fst (serve_create_booking (sample_booking (at_utc 739001 17 0) (at_utc 739001 18 45))
          sample_env sample_db)
   = mk_response 400
       (Content (failed (py "Cannot create a booking outside office hours."))) ->
   hour (at_utc 739001 17 0) < 9 \/ hour (at_utc 739001 18 45) > 18)
  /\ serve_create_booking (sample_booking (at_utc 739001 8 0) (at_utc 739001 10 0))
       sample_env sample_db
     = (mk_response 400
          (Content (failed (py "Cannot create a booking outside office hours."))),
        sample_db).
Proof.
  split.
  - refine (proj1 (proj2 (office_hours_check
      (sample_booking (at_utc 739001 17 0) (at_utc 739001 18 45)) sample_env sample_db _))).
    unfold orderly, aware. vm_compute. repeat split; eauto; discriminate.
  - refine (proj1 (office_hours_check
      (sample_booking (at_utc 739001 8 0) (at_utc 739001 10 0)) sample_env sample_db _) _).
    + unfold orderly, aware. vm_compute. repeat split; eauto; discriminate.
    + left. vm_compute. reflexivity.
Defined.





(** C10: the office-hours check looks at the two hour fields only,
    never at the dates.  A request whose start hour is at least 9 and
    whose end hour is at most 18 is never answered with the office-hours
    rejection, and a booking from 09:00 on one day to 17:00 any number
    of whole days later (three, say) that is not in the past and meets
    no existing booking is accepted and stored. *)
Theorem office_hours_ignore_dates (booking : BookingCreate.t) (env : Env) (db : Db) :
  (within_office_hours booking ->
   fst (serve_create_booking booking env db)
   <> mk_response 400
        (Content (failed (py "Cannot create a booking outside office hours."))))
  /\ (forall day days : Z,
        1 <= days ->
        BookingCreate.start_time booking = at_utc day 9 0 ->
        BookingCreate.end_time booking = at_utc (day + days) 17 0 ->
        clock env <= utc_micros (at_utc day 9 0) ->
        (forall existing, existing ∈ bookings db -> ~ overlaps existing booking) ->
        fresh db_bookings env db ->
        fst (serve_create_booking booking env db)
        = mk_response 200
            (Model (BookingInDB_validate (new_booking booking (generated_id env))))
        /\ bookings (snd (serve_create_booking booking env db))
           = bookings db ++ [new_booking booking (generated_id env)]).
Proof.
  split.
  - intros [Hstart Hend]. rewrite serve_create_booking_unfold.
    destruct (Z.ltb_spec (hour (BookingCreate.start_time booking)) 9); [lia|].
    destruct (Z.gtb_spec (hour (BookingCreate.end_time booking)) 18); [lia|].
    cbn [orb]. repeat case_match; cbn; intros [=].
  - intros day days Hdays Hs He Hnow Hfree Hfresh.
    rewrite serve_create_booking_checked.
    + assert (List.find (overlap_query booking) (bookings db) = None) as ->.
      { apply find_none_iff. intros y Hy. apply overlap_query_false.
        intros Hm. apply (Hfree y Hy). by apply overlaps_in_millis_overlaps. }
      apply (existsb_by_id_fresh db_bookings) in Hfresh. cbn in Hfresh.
      rewrite Hfresh. done.
    + unfold orderly, aware. rewrite Hs, He. unfold utc_micros in *. cbn in *.
      repeat split; eauto; lia.
    + unfold within_office_hours. rewrite Hs, He. cbn. lia.
Qed.

(** From 09:00 on day 739002 to 17:00 three days later. *)
Lemma office_hours_ignore_dates_witness :
  fst (serve_create_booking (sample_booking (at_utc 739002 9 0) (at_utc 739005 17 0))
         sample_env sample_db)
  = mk_response 200
      (Model (BookingInDB_validate
                (new_booking (sample_booking (at_utc 739002 9 0) (at_utc 739005 17 0))
                   oid_2))).
Proof.
  refine (proj1 (proj2 (office_hours_ignore_dates
    (sample_booking (at_utc 739002 9 0) (at_utc 739005 17 0)) sample_env sample_db)
    739002 3 _ _ _ _ _ _)).
  - lia.
  - reflexivity.
  - reflexivity.
  - vm_compute. discriminate.
  - intros existing [->|H]%elem_of_cons; [|inversion H].
    intros [_ H]. vm_compute in H. discriminate.
  - intros d [->|H]%elem_of_cons; [vm_compute; discriminate | inversion H].
Defined.

(** ** Validation before mutation *)

(** C6: a [POST /feedback] or [POST /booking] request that is answered
    400 or 409 leaves both collections as they were. *)
Theorem failed_request_inserts_nothing (datetime_validate : json -> option datetime)
    (x_api_key : option str) (request_body : received) (env : Env) (db : Db) :
  (status_code (fst (POST_feedback x_api_key request_body env db)) = 400
   \/ status_code (fst (POST_feedback x_api_key request_body env db)) = 409 ->
   feedback (snd (POST_feedback x_api_key request_body env db)) = feedback db
   /\ bookings (snd (POST_feedback x_api_key request_body env db)) = bookings db)
  /\ (status_code (fst (POST_booking datetime_validate x_api_key request_body env db)) = 400
      \/ status_code (fst (POST_booking datetime_validate x_api_key request_body env db)) = 409 ->
      feedback (snd (POST_booking datetime_validate x_api_key request_body env db))
      = feedback db
      /\ bookings (snd (POST_booking datetime_validate x_api_key request_body env db))
         = bookings db).
Proof.
  unfold POST_feedback, POST_booking. rewrite !with_body_cases. split.
  - destruct request_body as [|v| | |]; try done;
      (destruct x_api_key as [key|]; [|done]); (destruct (bool_decide _); [done|]);
      try done.
    destruct (FeedbackCreate_validate v) as [feedback_in|]; [|done].
    change (run_endpoint FeedbackInDB_validate (create_feedback feedback_in))
      with (serve_create_feedback feedback_in).
    rewrite serve_create_feedback_unfold.
    repeat case_match; cbn; try done; intros [?|?]; done.
  - destruct request_body as [|v| | |]; try done;
      (destruct x_api_key as [key|]; [|done]); (destruct (bool_decide _); [done|]);
      try done.
    destruct (BookingCreate_validate datetime_validate v) as [booking|]; [|done].
    change (run_endpoint BookingInDB_validate (create_booking booking))
      with (serve_create_booking booking).
    rewrite serve_create_booking_unfold.
    repeat case_match; cbn; try done; intros [?|?]; done.
Qed.

(** An authorised submission of "too short" is answered 400 and the
    collections stay empty. *)
Lemma failed_request_inserts_nothing_witness :
  feedback (snd (POST_feedback (Some (py "secret")) (sample_body "too short")
                   sample_env empty_db)) = []
  /\ bookings (snd (POST_feedback (Some (py "secret")) (sample_body "too short")
                      sample_env empty_db)) = [].
Proof.
  refine (proj1 (failed_request_inserts_nothing (fun _ => None)
    (Some (py "secret")) (sample_body "too short") sample_env empty_db) _).
  left. vm_compute. reflexivity.
Defined.

(** ** Lookups by identifier *)

(** C7: an identifier that is not twenty-four hexadecimal characters
    is answered 400 by both lookups without any database operation, with
    the generic detail "Invalid ID format" on the feedback route and the
    structured reason "Invalid ID format" on the booking route; a
    well-formed identifier that matches no document of the collection is
    answered 404 with the generic detail "Not found" on both. *)
Theorem identifier_lookup (id : str) (env : Env) (db : Db) :
  (~ valid_format id ->
   serve_get_feedback id env db
   = (mk_response 400 (Detail (py "Invalid ID format")), db)
   /\ serve_get_booking id env db
      = (mk_response 400 (Content [("status", py "failed");
                                   ("reason", py "Invalid ID format")]), db))
  /\ (valid_format id ->
      (forall doc, doc ∈ feedback db -> ObjectId_of_str id <> Some (FeedbackDoc._id doc)) ->
      fst (serve_get_feedback id env db) = mk_response 404 (Detail (py "Not found")))
  /\ (valid_format id ->
      (forall doc, doc ∈ bookings db -> ObjectId_of_str id <> Some (BookingDoc._id doc)) ->
      fst (serve_get_booking id env db) = mk_response 404 (Detail (py "Not found"))).
Proof.
  rewrite serve_get_feedback_unfold, serve_get_booking_unfold.
  pose proof (ObjectId_is_valid_format id) as Hformat.
  unfold ObjectId_is_valid in Hformat. rewrite bool_decide_eq_true in Hformat.
  fold (valid_format id) in Hformat.
  destruct (ObjectId_of_str id) as [oid|].
  - split; [intros Hbad; destruct Hbad; apply Hformat; eauto|].
    split; intros _ Hnone.
    + assert (List.find (by_id db_feedback oid) (feedback db) = None) as ->; [|done].
      apply find_none_iff. intros doc Hdoc. apply bool_decide_eq_false.
      intros Heq. apply (Hnone doc Hdoc). cbn in Heq. by rewrite Heq.
    + assert (List.find (by_id db_bookings oid) (bookings db) = None) as ->; [|done].
      apply find_none_iff. intros doc Hdoc. apply bool_decide_eq_false.
      intros Heq. apply (Hnone doc Hdoc). cbn in Heq. by rewrite Heq.
  - split; [done|]. split; intros Hvalid; apply Hformat in Hvalid as [? [=]].
Qed.

(** The text "not-an-id" is refused; twenty-four zeros are not found. *)
Lemma identifier_lookup_witness :
  serve_get_feedback (py "not-an-id") sample_env sample_db
  = (mk_response 400 (Detail (py "Invalid ID format")), sample_db)
  /\ fst (serve_get_booking (py "000000000000000000000000") sample_env sample_db)
     = mk_response 404 (Detail (py "Not found")).
Proof.
  split.
  - refine (proj1 (proj1 (identifier_lookup (py "not-an-id") sample_env sample_db) _)).
    intros [Hlen _]. vm_compute in Hlen. discriminate.
  - refine (proj2 (proj2 (identifier_lookup (py "000000000000000000000000")
                            sample_env sample_db)) _ _).
    + split; [reflexivity|]. vm_compute. repeat constructor.
    + intros doc [->|H]%elem_of_cons; [vm_compute; discriminate | inversion H].
Defined.

(** ** Created records *)

(** A protected route answers 200 only to a request that carried the
    configured key and validated, and the answer is the endpoint's. *)
Lemma protected_200 {P D R} (response_model : D -> R) (endpoint : P -> M (returned D))
    (x_api_key : option str) (parameter : option P) (env : Env) (db db' : Db)
    (b : body R) :
  protected response_model endpoint x_api_key parameter env db = (mk_response 200 b, db') ->
  exists key p,
    x_api_key = Some key /\ API_KEY env = Some key /\ parameter = Some p
    /\ run_endpoint response_model (endpoint p) env db = (mk_response 200 b, db').
Proof.
  rewrite protected_cases. destruct x_api_key as [key|]; [|done].
  destruct (decide (Some key = API_KEY env)) as [Hkey|Hkey].
  - rewrite bool_decide_eq_false_2 by eauto.
    destruct parameter as [p|]; [|done]. intros H. by exists key, p.
  - rewrite bool_decide_eq_true_2 by done. done.
Qed.

(** A route with a body answers 200 only to a request that carried the
    configured key and a JSON body that validated. *)
Lemma with_body_200 {P D R} (response_model : D -> R) (endpoint : P -> M (returned D))
    (validate : json -> option P) (x_api_key : option str) (request_body : received)
    (env : Env) (db db' : Db) (b : body R) :
  with_body response_model endpoint validate x_api_key request_body env db
  = (mk_response 200 b, db') ->
  exists key v p,
    x_api_key = Some key /\ API_KEY env = Some key /\ request_body = JsonBody v
    /\ validate v = Some p
    /\ run_endpoint response_model (endpoint p) env db = (mk_response 200 b, db').
Proof.
  unfold with_body. destruct request_body as [|v| | |]; try done;
    intros (key & p & -> & Hkey & Hp & Hrun)%protected_200; try done.
  by exists key, v, p.
Qed.

(** What a successful feedback submission has done. *)
Lemma serve_create_feedback_200 (feedback_in : FeedbackCreate.t) (env : Env)
    (db db' : Db) (created : FeedbackInDB.t) :
  serve_create_feedback feedback_in env db = (mk_response 200 (Model created), db') ->
  created = FeedbackInDB_validate
              (feedback_data feedback_in (datetime_of_clock (clock env)) (generated_id env))
  /\ feedback db' = feedback db
                    ++ [feedback_data feedback_in (datetime_of_clock (clock env))
                          (generated_id env)]
  /\ bookings db' = bookings db
  /\ existsb (by_id db_feedback (generated_id env)) (feedback db) = false.
Proof.
  rewrite serve_create_feedback_unfold.
  destruct (_ <? _)%nat; [done|]. destruct (existsb _ _); [done|].
  intros [= <- <-]. done.
Qed.

(** What a successful booking request has done. *)
Lemma serve_create_booking_200 (booking : BookingCreate.t) (env : Env)
    (db db' : Db) (created : BookingInDB.t) :
  serve_create_booking booking env db = (mk_response 200 (Model created), db') ->
  created = BookingInDB_validate (new_booking booking (generated_id env))
  /\ feedback db' = feedback db
  /\ bookings db' = bookings db ++ [new_booking booking (generated_id env)]
  /\ existsb (by_id db_bookings (generated_id env)) (bookings db) = false.
Proof.
  rewrite serve_create_booking_unfold.
  repeat case_match; try done. intros [= <- <-]. done.
Qed.



(** The fields of a request body that [FeedbackCreate] reads do not
    include [time]. *)
Lemma FeedbackCreate_validate_time (o : gmap string json) (client_time : json) :
  FeedbackCreate_validate (JObject (<["time" := client_time]> o))
  = FeedbackCreate_validate (JObject o).
Proof.
  unfold FeedbackCreate_validate. by rewrite !lookup_insert_ne.
Qed.

(** C9, as the code has it: the time of a feedback record is the
    server's clock reading of the creating request cut to the
    millisecond.  A request answered 200 has added exactly one document
    to the feedback collection, whose time is that reading in whole
    milliseconds, and the record it returns carries the same instant as
    a naive datetime, at most 999 microseconds before the reading; a
    request answered otherwise leaves the feedback collection as it was;
    and a [time] the client puts in the request body changes neither the
    answer nor the database. *)
Theorem feedback_time_is_server_time (x_api_key : option str) (request_body : received)
    (env : Env) (db : Db) :
  (forall (created : FeedbackInDB.t) (db' : Db),
     POST_feedback x_api_key request_body env db
     = (mk_response 200 (Model created), db') ->
     (exists doc,
        feedback db' = feedback db ++ [doc]
        /\ FeedbackDoc.time doc = clock env / 1000
        /\ created = FeedbackInDB_validate doc)
     /\ FeedbackInDB.time created = datetime_of_bson (clock env / 1000)
     /\ tzinfo (FeedbackInDB.time created) = None
     /\ clock env - 999 <= utc_micros (FeedbackInDB.time created) <= clock env)
  /\ (status_code (fst (POST_feedback x_api_key request_body env db)) <> 200 ->
      feedback (snd (POST_feedback x_api_key request_body env db)) = feedback db)
  /\ (forall (o : gmap string json) (client_time : json),
        request_body = JsonBody (JObject o) ->
        POST_feedback x_api_key (JsonBody (JObject (<["time" := client_time]> o))) env db
        = POST_feedback x_api_key request_body env db).
Proof.
  split; [|split].
  - intros created db' Hpost.
    apply with_body_200 in Hpost as (key & v & feedback_in & -> & Hkey & _ & _ & Hrun).
    apply serve_create_feedback_200 in Hrun as (-> & Hfb & _).
    cbn [FeedbackInDB.time FeedbackInDB_validate FeedbackDoc.time feedback_data].
    rewrite bson_date_now, utc_micros_of_bson. split; [|split; [done|split; [done|]]].
    + eexists. split; [exact Hfb|]. cbn. by rewrite bson_date_now.
    + Z.to_euclidean_division_equations; lia.
  - unfold POST_feedback. rewrite with_body_cases.
    destruct request_body as [|v| | |]; try done;
      (destruct x_api_key as [key|]; [|done]); (destruct (bool_decide _); [done|]);
      try done.
    destruct (FeedbackCreate_validate v) as [feedback_in|]; [|done].
    change (run_endpoint FeedbackInDB_validate (create_feedback feedback_in))
      with (serve_create_feedback feedback_in).
    rewrite serve_create_feedback_unfold.
    destruct (_ <? _)%nat; [done|]. destruct (existsb _ _); [done|]. cbn. done.
  - intros o client_time ->. unfold POST_feedback, with_body.
    by rewrite FeedbackCreate_validate_time.
Qed.

(** A submission that carries its own [time] is stamped with the clock
    reading. *)
Lemma feedback_time_is_server_time_witness :
  FeedbackInDB.time
    (FeedbackInDB_validate
       (feedback_data (sample_feedback "This is more than ten characters")
          (datetime_of_clock (clock sample_env)) oid_2))
  = datetime_of_bson (clock sample_env / 1000).
Proof.
  refine (proj1 (proj2 (proj1 (feedback_time_is_server_time (Some (py "secret"))
    (JsonBody
       (JObject (<["time" := JString (py "1999-12-31T23:59:59Z")]>
                   (<["name" := JString (py "Alice")]>
                   (<["email" := JString (py "a@x.com")]>
                   (<["feedback" := JString (py "This is more than ten characters")]> ∅))))))
    sample_env empty_db)
    _
    (mk_Db [feedback_data (sample_feedback "This is more than ten characters")
              (datetime_of_clock (clock sample_env)) oid_2]
       [] [FindOne "feedback"; InsertOne "feedback"])
    _))).
  vm_compute. reflexivity.
Defined.

(** C9 as stated fails when the clock reading has a part below the
    millisecond: at a reading 1500 microseconds into day 739000 the
    stored time is the whole millisecond before it, and the returned
    record carries an instant 500 microseconds earlier than the reading,
    as a naive datetime. *)
Lemma feedback_time_cut_to_millisecond :
  exists created db',
    POST_feedback (Some (py "secret")) (sample_body "This is more than ten characters")
      (mk_Env (Some (py "secret")) (739000 * 86400000000 + 1500) oid_2) empty_db
    = (mk_response 200 (Model created), db')
    /\ utc_micros (FeedbackInDB.time created) = 739000 * 86400000000 + 1000
    /\ FeedbackInDB.time created <> datetime_of_clock (739000 * 86400000000 + 1500)
    /\ map FeedbackDoc.time (feedback db') = [739000 * 86400000 + 1].
Proof.
  eexists _, _. split; [vm_compute; reflexivity|].
  split; [vm_compute; reflexivity|]. split; [vm_compute; discriminate|].
  vm_compute. reflexivity.
Qed.

(** ** Scenarios *)

(** With a booking of 10:00 to 11:00 in place, a request for 10:30 to
    11:30 is answered 409 and names that booking; the collection has only
    been queried. *)
Example overlapping_request_scenario :
  serve_create_booking (sample_booking (at_utc 739001 10 30) (at_utc 739001 11 30))
    sample_env sample_db
  = (mk_response 409
       (Content [("status", py "failed");
                 ("reason",
                  py "Time slot unavailable. Overlaps with booking ID: 654a00000000000000000001")]),
     called (FindOne "bookings") sample_db).
Proof. vm_compute. reflexivity. Qed.

(** A request whose datetimes are naive passes the first check and
    fails in the comparison with the aware clock reading: the exception
    is answered 500 and nothing is stored. *)
Lemma naive_request_is_server_error (booking : BookingCreate.t) (env : Env) (db : Db) :
  tzinfo (BookingCreate.start_time booking) = None ->
  tzinfo (BookingCreate.end_time booking) = None ->
  utc_micros (BookingCreate.start_time booking)
    < utc_micros (BookingCreate.end_time booking) ->
  serve_create_booking booking env db = (mk_response 500 InternalServerError, db).
Proof.
  intros Hs He Horder. rewrite serve_create_booking_unfold.
  unfold comparable. rewrite Hs, He. cbn.
  destruct (Z.leb_spec (utc_micros (BookingCreate.end_time booking))
              (utc_micros (BookingCreate.start_time booking))); [lia|done].
Qed.

(** A booking that begins and ends within one millisecond is stored
    with equal start and end, which no later request overlaps: the same
    request is accepted a second time. *)
Example brief_booking_accepted_twice :
  let booking := sample_booking (mk_datetime 739001 10 0 0 100 (Some 0))
                   (mk_datetime 739001 10 0 0 900 (Some 0)) in
  let db' := snd (serve_create_booking booking sample_env empty_db) in
  status_code (fst (serve_create_booking booking sample_env empty_db)) = 200
  /\ status_code
       (fst (serve_create_booking booking (mk_Env (Some (py "secret")) (clock sample_env) oid_1)
               db')) = 200.
Proof. vm_compute. split; reflexivity. Qed.

(** The root route answers without any header. *)
Example root_scenario :
  GET_root = mk_response 200 (Content [("message", py "API is running.")]).
Proof. reflexivity. Qed.

(** * Further properties *)

(** ** Trimming *)

Lemma lstrip_blank (s : str) : blank s -> lstrip s = [].
Proof.
  induction 1 as [|c s Hc _ IH]; [done|]. cbn. by rewrite Hc.
Qed.

Lemma lstrip_app (s t : str) :
  lstrip (s ++ t) = match lstrip s with [] => lstrip t | _ => lstrip s ++ t end.
Proof.
  induction s as [|c s IH]; cbn; [by destruct (lstrip t)|].
  destruct (isspace c); [done|]. done.
Qed.

Lemma blank_rev (s : str) : blank s -> blank (rev s).
Proof.
  unfold blank. rewrite !Forall_forall. intros H c Hc. apply H.
  apply list_elem_of_In, in_rev. by apply list_elem_of_In.
Qed.

Lemma rstrip_app_blank (s ws : str) : blank ws -> rstrip (s ++ ws) = rstrip s.
Proof.
  intros Hws. unfold rstrip. rewrite rev_app_distr, lstrip_app.
  rewrite (lstrip_blank (rev ws)) by by apply blank_rev. done.
Qed.

(** Whitespace around a text is not seen by [strip]. *)
Lemma strip_padding (ws text ws' : str) :
  blank ws -> blank ws' -> strip (ws ++ text ++ ws') = strip text.
Proof.
  intros Hws Hws'. unfold strip.
  rewrite lstrip_app, (lstrip_blank ws Hws), lstrip_app.
  destruct (lstrip text) as [|c s] eqn:Htext.
  - by rewrite (lstrip_blank ws' Hws').
  - by rewrite rstrip_app_blank.
Qed.

Lemma strip_blank (s : str) : blank s -> strip s = [].
Proof. intros Hs. unfold strip. by rewrite (lstrip_blank s Hs). Qed.

(** X1: a feedback text made of whitespace only, the empty text
    included, is answered 400 "Feedback too short." however long it is,
    and no database operation is issued. *)
Theorem blank_feedback_rejected (feedback_in : FeedbackCreate.t) (env : Env) (db : Db) :
  blank (FeedbackCreate.feedback feedback_in) ->
  serve_create_feedback feedback_in env db
  = (mk_response 400 (Detail (py "Feedback too short.")), db).
Proof.
  intros Hblank. rewrite serve_create_feedback_unfold, (strip_blank _ Hblank). done.
Qed.

Lemma blank_feedback_rejected_witness :
  serve_create_feedback (sample_feedback "                    ") sample_env empty_db
  = (mk_response 400 (Detail (py "Feedback too short.")), empty_db).
Proof.
  apply blank_feedback_rejected. vm_compute. repeat constructor.
Defined.

(** X2: whitespace added before and after a feedback text does not
    change whether the submission is accepted: the status of the answer
    is the same with and without the padding. *)
Theorem feedback_padding_not_counted (name email ws text ws' : str) (env : Env) (db : Db) :
  blank ws -> blank ws' ->
  status_code (fst (serve_create_feedback
                      (FeedbackCreate.mk name email (ws ++ text ++ ws')) env db))
  = status_code (fst (serve_create_feedback (FeedbackCreate.mk name email text) env db)).
Proof.
  intros Hws Hws'. rewrite !serve_create_feedback_unfold. cbn [FeedbackCreate.feedback].
  rewrite (strip_padding _ _ _ Hws Hws').
  destruct (_ <? _)%nat; [done|]. by destruct (existsb _ _).
Qed.

Lemma feedback_padding_not_counted_witness :
  status_code (fst (serve_create_feedback
                      (FeedbackCreate.mk (py "Alice") (py "a@x.com")
                         (py "   " ++ py "too short" ++ py "      "))
                      sample_env empty_db))
  = status_code (fst (serve_create_feedback
                        (FeedbackCreate.mk (py "Alice") (py "a@x.com") (py "too short"))
                        sample_env empty_db)).
Proof.
  apply feedback_padding_not_counted; vm_compute; repeat constructor.
Defined.

(** ** Authentication *)

Lemma serve_create_feedback_status (feedback_in : FeedbackCreate.t) (env : Env) (db : Db) :
  status_code (fst (serve_create_feedback feedback_in env db)) ∈ [200; 400; 500].
Proof.
  rewrite serve_create_feedback_unfold.
  repeat case_match; cbn; repeat first [by left | right].
Qed.

Lemma serve_get_feedback_status (id : str) (env : Env) (db : Db) :
  status_code (fst (serve_get_feedback id env db)) ∈ [200; 400; 404].
Proof.
  rewrite serve_get_feedback_unfold.
  repeat case_match; cbn; repeat first [by left | right].
Qed.

Lemma serve_create_booking_status (booking : BookingCreate.t) (env : Env) (db : Db) :
  status_code (fst (serve_create_booking booking env db)) ∈ [200; 400; 409; 500].
Proof.
  rewrite serve_create_booking_unfold.
  repeat case_match; cbn; repeat first [by left | right].
Qed.

Lemma serve_get_booking_status (id : str) (env : Env) (db : Db) :
  status_code (fst (serve_get_booking id env db)) ∈ [200; 400; 404].
Proof.
  rewrite serve_get_booking_unfold.
  repeat case_match; cbn; repeat first [by left | right].
Qed.

(** Behind the dependency, 401 is the answer of the key check alone. *)
Lemma protected_status_401 {P D R} (response_model : D -> R)
    (endpoint : P -> M (returned D)) (x_api_key : option str) (parameter : option P)
    (env : Env) (db : Db) :
  (forall p, status_code (fst (run_endpoint response_model (endpoint p) env db)) <> 401) ->
  status_code (fst (protected response_model endpoint x_api_key parameter env db)) = 401
  <-> exists key, x_api_key = Some key /\ Some key <> API_KEY env.
Proof.
  intros Hendpoint. rewrite protected_cases.
  destruct x_api_key as [key|]; [|split; [done|by intros (? & [=] & _)]].
  destruct (decide (Some key = API_KEY env)) as [Hkey|Hkey].
  - rewrite bool_decide_eq_false_2 by eauto. split.
    + destruct parameter as [p|]; [|done]. intros H. by apply Hendpoint in H.
    + intros (k & [= <-] & Hk). done.
  - rewrite bool_decide_eq_true_2 by done. split; [|done]. intros _. eauto.
Qed.

(** A request answered 401 or 422 has not reached the endpoint. *)
Lemma protected_rejected {P D R} (response_model : D -> R)
    (endpoint : P -> M (returned D)) (x_api_key : option str) (parameter : option P)
    (env : Env) (db : Db) :
  (forall p, status_code (fst (run_endpoint response_model (endpoint p) env db)) <> 401
             /\ status_code (fst (run_endpoint response_model (endpoint p) env db)) <> 422) ->
  status_code (fst (protected response_model endpoint x_api_key parameter env db)) = 401
  \/ status_code (fst (protected response_model endpoint x_api_key parameter env db)) = 422 ->
  snd (protected response_model endpoint x_api_key parameter env db) = db.
Proof.
  intros Hendpoint. rewrite protected_cases.
  destruct x_api_key as [key|]; [|done]. destruct (bool_decide _); [done|].
  destruct parameter as [p|]; [|done]. destruct (Hendpoint p). intros [?|?]; done.
Qed.

(** On a route with a body, 401 is the answer of the key check alone,
    and the key is checked only when the body could be read. *)
Lemma with_body_status_401 {P D R} (response_model : D -> R)
    (endpoint : P -> M (returned D)) (validate : json -> option P)
    (x_api_key : option str) (request_body : received) (env : Env) (db : Db) :
  (forall p, status_code (fst (run_endpoint response_model (endpoint p) env db)) <> 401) ->
  status_code (fst (with_body response_model endpoint validate x_api_key request_body env db))
  = 401
  <-> request_body <> JsonDecodeError /\ request_body <> BodyReadError
      /\ exists key, x_api_key = Some key /\ Some key <> API_KEY env.
Proof.
  intros Hendpoint. unfold with_body.
  destruct request_body as [|v| | |]; rewrite ?protected_status_401 by done;
    cbn; split; try done; try (by intros (_ & _ & H)); by intros (? & ? & _).
Qed.

Lemma with_body_rejected {P D R} (response_model : D -> R)
    (endpoint : P -> M (returned D)) (validate : json -> option P)
    (x_api_key : option str) (request_body : received) (env : Env) (db : Db) :
  (forall p, status_code (fst (run_endpoint response_model (endpoint p) env db)) <> 401
             /\ status_code (fst (run_endpoint response_model (endpoint p) env db)) <> 422) ->
  status_code (fst (with_body response_model endpoint validate x_api_key request_body env db))
  = 401
  \/ status_code (fst (with_body response_model endpoint validate x_api_key request_body
                         env db)) = 422 ->
  snd (with_body response_model endpoint validate x_api_key request_body env db) = db.
Proof.
  intros Hendpoint. unfold with_body.
  destruct request_body as [|v| | |]; try done; by apply protected_rejected.
Qed.

(** Closes a goal from a status that is not in the list it should be in. *)
Ltac not_listed H :=
  repeat (apply elem_of_cons in H as [H|H]; [done|]); by apply elem_of_nil in H.

Lemma endpoints_not_401_422 (env : Env) (db : Db) :
  (forall p, status_code (fst (run_endpoint FeedbackInDB_validate (create_feedback p) env db)) <> 401
             /\ status_code (fst (run_endpoint FeedbackInDB_validate (create_feedback p) env db)) <> 422)
  /\ (forall p, status_code (fst (run_endpoint FeedbackInDB_validate (get_feedback p) env db)) <> 401
             /\ status_code (fst (run_endpoint FeedbackInDB_validate (get_feedback p) env db)) <> 422)
  /\ (forall p, status_code (fst (run_endpoint BookingInDB_validate (create_booking p) env db)) <> 401
             /\ status_code (fst (run_endpoint BookingInDB_validate (create_booking p) env db)) <> 422)
  /\ (forall p, status_code (fst (run_endpoint BookingInDB_validate (get_booking p) env db)) <> 401
             /\ status_code (fst (run_endpoint BookingInDB_validate (get_booking p) env db)) <> 422).
Proof.
  repeat split; intros H.
  - pose proof (serve_create_feedback_status p env db) as H'.
    unfold serve_create_feedback in H'. rewrite H in H'. not_listed H'.
  - pose proof (serve_create_feedback_status p env db) as H'.
    unfold serve_create_feedback in H'. rewrite H in H'. not_listed H'.
  - pose proof (serve_get_feedback_status p env db) as H'.
    unfold serve_get_feedback in H'. rewrite H in H'. not_listed H'.
  - pose proof (serve_get_feedback_status p env db) as H'.
    unfold serve_get_feedback in H'. rewrite H in H'. not_listed H'.
  - pose proof (serve_create_booking_status p env db) as H'.
    unfold serve_create_booking in H'. rewrite H in H'. not_listed H'.
  - pose proof (serve_create_booking_status p env db) as H'.
    unfold serve_create_booking in H'. rewrite H in H'. not_listed H'.
  - pose proof (serve_get_booking_status p env db) as H'.
    unfold serve_get_booking in H'. rewrite H in H'. not_listed H'.
  - pose proof (serve_get_booking_status p env db) as H'.
    unfold serve_get_booking in H'. rewrite H in H'. not_listed H'.
Qed.

(** X3: on each protected route the status is 401 exactly when the
    request carries an [x-api-key] header whose value differs from the
    configured key and, on the two routes with a body, the body could be
    read (one that could not is answered 422 or 400 before the key is
    looked at): the configured key is never refused, and no handler
    answers 401 on its own. *)
Theorem unauthorized_exactly_on_wrong_key (datetime_validate : json -> option datetime)
    (x_api_key : option str) (request_body : received) (id : str) (env : Env) (db : Db) :
  (status_code (fst (POST_feedback x_api_key request_body env db)) = 401
   <-> request_body <> JsonDecodeError /\ request_body <> BodyReadError
       /\ exists key, x_api_key = Some key /\ Some key <> API_KEY env)
  /\ (status_code (fst (GET_feedback x_api_key id env db)) = 401
      <-> exists key, x_api_key = Some key /\ Some key <> API_KEY env)
  /\ (status_code (fst (POST_booking datetime_validate x_api_key request_body env db)) = 401
      <-> request_body <> JsonDecodeError /\ request_body <> BodyReadError
          /\ exists key, x_api_key = Some key /\ Some key <> API_KEY env)
  /\ (status_code (fst (GET_booking x_api_key id env db)) = 401
      <-> exists key, x_api_key = Some key /\ Some key <> API_KEY env).
Proof.
  destruct (endpoints_not_401_422 env db) as (H1 & H2 & H3 & H4).
  unfold POST_feedback, GET_feedback, POST_booking, GET_booking.
  split; [|split; [|split]].
  - apply with_body_status_401. intros p. by destruct (H1 p).
  - apply protected_status_401. intros p. by destruct (H2 p).
  - apply with_body_status_401. intros p. by destruct (H3 p).
  - apply protected_status_401. intros p. by destruct (H4 p).
Qed.

(** X4: a request that a protected route answers 401 or 422 has left
    the database exactly as it was: neither collection has changed and
    no operation has been issued. *)
Theorem rejected_before_database (datetime_validate : json -> option datetime)
    (x_api_key : option str) (request_body : received) (id : str) (env : Env) (db : Db) :
  (status_code (fst (POST_feedback x_api_key request_body env db)) = 401
   \/ status_code (fst (POST_feedback x_api_key request_body env db)) = 422 ->
   snd (POST_feedback x_api_key request_body env db) = db)
  /\ (status_code (fst (GET_feedback x_api_key id env db)) = 401
      \/ status_code (fst (GET_feedback x_api_key id env db)) = 422 ->
      snd (GET_feedback x_api_key id env db) = db)
  /\ (status_code (fst (POST_booking datetime_validate x_api_key request_body env db)) = 401
      \/ status_code (fst (POST_booking datetime_validate x_api_key request_body env db)) = 422 ->
      snd (POST_booking datetime_validate x_api_key request_body env db) = db)
  /\ (status_code (fst (GET_booking x_api_key id env db)) = 401
      \/ status_code (fst (GET_booking x_api_key id env db)) = 422 ->
      snd (GET_booking x_api_key id env db) = db).
Proof.
  destruct (endpoints_not_401_422 env db) as (H1 & H2 & H3 & H4).
  unfold POST_feedback, GET_feedback, POST_booking, GET_booking.
  split; [|split; [|split]].
  - by apply with_body_rejected.
  - by apply protected_rejected.
  - by apply with_body_rejected.
  - by apply protected_rejected.
Qed.

Lemma rejected_before_database_witness :
  snd (POST_booking (fun _ => None) (Some (py "guess")) (sample_body "anything at all")
         sample_env sample_db) = sample_db.
Proof.
  refine (proj1 (proj2 (proj2 (rejected_before_database (fun _ => None)
    (Some (py "guess")) (sample_body "anything at all") (py "") sample_env sample_db))) _).
  left. vm_compute. reflexivity.
Defined.

(** X5: when the variable [API_KEY] is not set, every request to a
    protected route is refused and the database is left exactly as it
    was: the answer is 401 if the request has the header and 422 if it
    has not, except that on the two routes with a body a body that does
    not decode is answered 422 and one that cannot be read 400, whatever
    the header. *)
Theorem unset_key_locks_protected_routes (datetime_validate : json -> option datetime)
    (req : request) (env : Env) (db : Db) :
  API_KEY env = None -> req <> Root ->
  app datetime_validate req env db
  = (match req with
     | PostFeedback _ JsonDecodeError | PostBooking _ JsonDecodeError => 422
     | PostFeedback _ BodyReadError | PostBooking _ BodyReadError => 400
     | PostFeedback (Some _) _ | GetFeedback (Some _) _
     | PostBooking (Some _) _ | GetBooking (Some _) _ => 401
     | _ => 422
     end, db).
Proof.
  intros Hkey Hroot.
  destruct req as [|[key|] []|[key|] ?|[key|] []|[key|] ?]; try done;
    unfold app, outcome, POST_feedback, GET_feedback, POST_booking, GET_booking, with_body;
    rewrite protected_cases; rewrite ?Hkey; rewrite ?bool_decide_eq_true_2 by done;
    done.
Qed.

Lemma unset_key_locks_protected_routes_witness :
  app (fun _ => None) (GetFeedback (Some (py "secret")) (py "654a00000000000000000001"))
    (mk_Env None 0 oid_2) sample_db = (401, sample_db).
Proof.
  apply (unset_key_locks_protected_routes (fun _ => None)
           (GetFeedback (Some (py "secret")) (py "654a00000000000000000001")));
    [reflexivity | discriminate].
Defined.

(** ** Lookups *)

Lemma find_unique {D} (c : Collection D) (l : list D) (d : D) :
  NoDup (map (doc_id c) l) -> d ∈ l -> List.find (by_id c (doc_id c d)) l = Some d.
Proof.
  induction l as [|a l IH]; cbn; [intros _ H; inversion H|].
  intros [Ha Hl]%NoDup_cons [->|Hd]%elem_of_cons.
  - unfold by_id. by rewrite bool_decide_eq_true_2.
  - unfold by_id at 1. rewrite bool_decide_eq_false_2; [by apply IH|].
    intros Heq. apply Ha. rewrite Heq. by apply list_elem_of_fmap_2.
Qed.

(** The lookups leave both collections as they are. *)
Lemma lookups_read_only_helper (x_api_key : option str) (id : str) (env : Env) (db : Db) :
  feedback (snd (GET_feedback x_api_key id env db)) = feedback db
  /\ bookings (snd (GET_feedback x_api_key id env db)) = bookings db
  /\ feedback (snd (GET_booking x_api_key id env db)) = feedback db
  /\ bookings (snd (GET_booking x_api_key id env db)) = bookings db.
Proof.
  unfold GET_feedback, GET_booking. rewrite !protected_cases.
  change (run_endpoint FeedbackInDB_validate (get_feedback id)) with (serve_get_feedback id).
  change (run_endpoint BookingInDB_validate (get_booking id)) with (serve_get_booking id).
  rewrite serve_get_feedback_unfold, serve_get_booking_unfold.
  repeat split; repeat case_match; cbn; eauto.
Qed.

(** X6: the two lookup routes never change a collection, whatever the
    key and the identifier are, and issue at most one query, on their
    own collection. *)
Theorem lookups_read_only (x_api_key : option str) (id : str) (env : Env) (db : Db) :
  (feedback (snd (GET_feedback x_api_key id env db)) = feedback db
   /\ bookings (snd (GET_feedback x_api_key id env db)) = bookings db
   /\ (calls (snd (GET_feedback x_api_key id env db)) = calls db
       \/ calls (snd (GET_feedback x_api_key id env db)) = FindOne "feedback" :: calls db))
  /\ (feedback (snd (GET_booking x_api_key id env db)) = feedback db
      /\ bookings (snd (GET_booking x_api_key id env db)) = bookings db
      /\ (calls (snd (GET_booking x_api_key id env db)) = calls db
          \/ calls (snd (GET_booking x_api_key id env db)) = FindOne "bookings" :: calls db)).
Proof.
  unfold GET_feedback, GET_booking. rewrite !protected_cases.
  change (run_endpoint FeedbackInDB_validate (get_feedback id)) with (serve_get_feedback id).
  change (run_endpoint BookingInDB_validate (get_booking id)) with (serve_get_booking id).
  rewrite serve_get_feedback_unfold, serve_get_booking_unfold.
  split; repeat case_match; cbn; eauto.
Qed.

(** X7: in a collection whose identifiers are pairwise distinct, the
    lookup of the identifier text of any stored document is answered 200
    with that document, for feedback and for bookings. *)
Theorem stored_document_found (env : Env) (db : Db) :
  (unique_ids db_feedback db ->
   forall doc, doc ∈ feedback db ->
     serve_get_feedback (ObjectId_str (FeedbackDoc._id doc)) env db
     = (mk_response 200 (Model (FeedbackInDB_validate doc)),
        called (FindOne "feedback") db))
  /\ (unique_ids db_bookings db ->
      forall doc, doc ∈ bookings db ->
        serve_get_booking (ObjectId_str (BookingDoc._id doc)) env db
        = (mk_response 200 (Model (BookingInDB_validate doc)),
           called (FindOne "bookings") db)).
Proof.
  split; intros Hunique doc Hdoc.
  - rewrite serve_get_feedback_unfold, ObjectId_of_str_str.
    pose proof (find_unique db_feedback (feedback db) doc Hunique Hdoc) as Hfind.
    cbn in Hfind. by rewrite Hfind.
  - rewrite serve_get_booking_unfold, ObjectId_of_str_str.
    pose proof (find_unique db_bookings (bookings db) doc Hunique Hdoc) as Hfind.
    cbn in Hfind. by rewrite Hfind.
Qed.

Lemma stored_document_found_witness :
  serve_get_booking (py "654a00000000000000000001") sample_env sample_db
  = (mk_response 200
       (Model (BookingInDB_validate
                 (BookingDoc.mk oid_1 (py "Bob") (py "b@x.com")
                    (bson_date (at_utc 739001 10 0)) (bson_date (at_utc 739001 11 0))
                    (py "Review")))),
     called (FindOne "bookings") sample_db).
Proof.
  refine (proj2 (stored_document_found sample_env sample_db) _
    (BookingDoc.mk oid_1 (py "Bob") (py "b@x.com") (bson_date (at_utc 739001 10 0))
       (bson_date (at_utc 739001 11 0)) (py "Review")) _).
  - unfold unique_ids. vm_compute. repeat constructor. intros H. inversion H.
  - vm_compute. left.
Defined.

(** X8: the text the response model gives for an identifier always has
    the valid format, so a lookup of it is never answered 400: it is
    answered 200 or 404. *)
Theorem issued_identifier_is_valid (oid : ObjectId) (env : Env) (db : Db) :
  valid_format (ObjectId_str oid)
  /\ status_code (fst (serve_get_feedback (ObjectId_str oid) env db)) ∈ [200; 404]
  /\ status_code (fst (serve_get_booking (ObjectId_str oid) env db)) ∈ [200; 404].
Proof.
  split.
  - apply ObjectId_is_valid_format, ObjectId_is_valid_str.
  - rewrite serve_get_feedback_unfold, serve_get_booking_unfold, ObjectId_of_str_str.
    split; repeat case_match; cbn; repeat first [by left | right].
Qed.

(** ** Accepted submissions *)

(** What a feedback submission does to the database: nothing to the
    collections, or, when it is answered 200, one document more. *)
Lemma serve_create_feedback_effect (feedback_in : FeedbackCreate.t) (env : Env) (db : Db) :
  (status_code (fst (serve_create_feedback feedback_in env db)) <> 200
   /\ feedback (snd (serve_create_feedback feedback_in env db)) = feedback db
   /\ bookings (snd (serve_create_feedback feedback_in env db)) = bookings db)
  \/ (status_code (fst (serve_create_feedback feedback_in env db)) = 200
      /\ (10 <= len (strip (FeedbackCreate.feedback feedback_in)))%nat
      /\ fresh db_feedback env db
      /\ feedback (snd (serve_create_feedback feedback_in env db))
         = feedback db ++ [feedback_data feedback_in (datetime_of_clock (clock env))
                             (generated_id env)]
      /\ bookings (snd (serve_create_feedback feedback_in env db)) = bookings db).
Proof.
  rewrite serve_create_feedback_unfold.
  destruct (Nat.ltb_spec (len (strip (FeedbackCreate.feedback feedback_in))) 10);
    [by left|].
  destruct (existsb _ _) eqn:Hfresh; [by left|]. right. cbn.
  repeat split; try done.
  unfold fresh. by apply (existsb_by_id_fresh db_feedback (generated_id env) (feedback db)).
Qed.

(** What a booking request does to the database: nothing to the
    collections, or, when it is answered 200, one document more, and
    then every check has passed. *)
Lemma serve_create_booking_effect (booking : BookingCreate.t) (env : Env) (db : Db) :
  (status_code (fst (serve_create_booking booking env db)) <> 200
   /\ feedback (snd (serve_create_booking booking env db)) = feedback db
   /\ bookings (snd (serve_create_booking booking env db)) = bookings db)
  \/ (status_code (fst (serve_create_booking booking env db)) = 200
      /\ orderly booking env
      /\ within_office_hours booking
      /\ (forall existing, existing ∈ bookings db -> ~ overlaps_in_millis existing booking)
      /\ fresh db_bookings env db
      /\ feedback (snd (serve_create_booking booking env db)) = feedback db
      /\ bookings (snd (serve_create_booking booking env db))
         = bookings db ++ [new_booking booking (generated_id env)]).
Proof.
  rewrite serve_create_booking_unfold.
  destruct (comparable _ (BookingCreate.end_time booking)) eqn:Hse; [|by left]. cbn [negb].
  destruct (Z.leb_spec (utc_micros (BookingCreate.end_time booking))
              (utc_micros (BookingCreate.start_time booking))); [by left|].
  destruct (comparable _ (datetime_of_clock _)) eqn:Hsn; [|by left]. cbn [negb].
  destruct (Z.ltb_spec (utc_micros (BookingCreate.start_time booking)) (clock env));
    [by left|].
  destruct (Z.ltb_spec (hour (BookingCreate.start_time booking)) 9); [by left|].
  destruct (Z.gtb_spec (hour (BookingCreate.end_time booking)) 18); [by left|]. cbn [orb].
  destruct (List.find _ _) eqn:Hfind; [by left|].
  destruct (existsb _ _) eqn:Hfresh; [by left|]. right. cbn.
  apply bool_decide_eq_true in Hse, Hsn.
  assert (aware (BookingCreate.start_time booking)) as Hs
    by (apply Hsn; cbn; eauto).
  assert (aware (BookingCreate.end_time booking)) as He by by apply Hse.
  split; [done|]. split; [by repeat split|]. split; [split; lia|]. split.
  - intros existing Hin. apply overlap_query_false.
    by apply (proj1 (find_none_iff _ _) Hfind).
  - split; [|done]. unfold fresh.
    by apply (existsb_by_id_fresh db_bookings (generated_id env) (bookings db)).
Qed.


(** X10: an accepted feedback is stored and returned as it was
    submitted: the name, the email and the text are the submitted ones,
    the text with the whitespace around it that the length check left
    out, and the identifier is the text of the generated one. *)
Theorem feedback_stored_as_submitted (feedback_in : FeedbackCreate.t) (env : Env)
    (db db' : Db) (created : FeedbackInDB.t) :
  serve_create_feedback feedback_in env db = (mk_response 200 (Model created), db') ->
  FeedbackInDB.id created = Some (ObjectId_str (generated_id env))
  /\ FeedbackInDB.name created = FeedbackCreate.name feedback_in
  /\ FeedbackInDB.email created = FeedbackCreate.email feedback_in
  /\ FeedbackInDB.feedback created = FeedbackCreate.feedback feedback_in
  /\ exists doc,
       feedback db' = feedback db ++ [doc]
       /\ FeedbackDoc._id doc = generated_id env
       /\ FeedbackDoc.name doc = FeedbackCreate.name feedback_in
       /\ FeedbackDoc.email doc = FeedbackCreate.email feedback_in
       /\ FeedbackDoc.feedback doc = FeedbackCreate.feedback feedback_in.
Proof.
  intros H. apply serve_create_feedback_200 in H as (-> & Hfb & _ & _).
  repeat split; try done. eexists. split; [exact Hfb|]. done.
Qed.

Lemma feedback_stored_as_submitted_witness :
  FeedbackInDB.feedback
    (FeedbackInDB_validate
       (feedback_data (sample_feedback "   padded on both sides   ")
          (datetime_of_clock (clock sample_env)) oid_2))
  = py "   padded on both sides   ".
Proof.
  refine (proj1 (proj2 (proj2 (proj2 (feedback_stored_as_submitted
    (sample_feedback "   padded on both sides   ") sample_env empty_db
    (mk_Db [feedback_data (sample_feedback "   padded on both sides   ")
              (datetime_of_clock (clock sample_env)) oid_2]
       [] [FindOne "feedback"; InsertOne "feedback"])
    _ _))))).
  vm_compute. reflexivity.
Defined.


(** X12: a booking request with a naive start or end never reaches the
    database and is never accepted: it is answered 400 "Start time must
    be before end time." when both are naive and the start is not before
    the end, and 500 in every other case, because the comparison of a
    naive with an aware datetime raises. *)
Theorem naive_booking_refused (booking : BookingCreate.t) (env : Env) (db : Db) :
  ~ aware (BookingCreate.start_time booking) \/ ~ aware (BookingCreate.end_time booking) ->
  (tzinfo (BookingCreate.start_time booking) = None
   /\ tzinfo (BookingCreate.end_time booking) = None
   /\ utc_micros (BookingCreate.end_time booking)
        <= utc_micros (BookingCreate.start_time booking) ->
   serve_create_booking booking env db
   = (mk_response 400 (Content (failed (py "Start time must be before end time."))), db))
  /\ (~ (tzinfo (BookingCreate.start_time booking) = None
         /\ tzinfo (BookingCreate.end_time booking) = None
         /\ utc_micros (BookingCreate.end_time booking)
              <= utc_micros (BookingCreate.start_time booking)) ->
      serve_create_booking booking env db = (mk_response 500 InternalServerError, db)).
Proof.
  intros Hnaive. rewrite serve_create_booking_unfold. unfold comparable, aware in *.
  destruct (tzinfo (BookingCreate.start_time booking)) as [os|] eqn:Hs;
    destruct (tzinfo (BookingCreate.end_time booking)) as [oe|] eqn:He; cbn.
  - destruct Hnaive as [H|H]; destruct H; eauto.
  - split; [by intros (? & _)|done].
  - split; [by intros (_ & ? & _)|done].
  - destruct (Z.leb_spec (utc_micros (BookingCreate.end_time booking))
                (utc_micros (BookingCreate.start_time booking))) as [Hle|Hlt].
    + split; [done|]. intros Hnot. destruct Hnot. done.
    + split; [|done]. intros (_ & _ & Hle). lia.
Qed.

(** Naive from 11:00 to 10:00 is answered 400; naive from 10:00 to 11:00
    is answered 500. *)
Lemma naive_booking_refused_witness :
  serve_create_booking
    (sample_booking (mk_datetime 739001 11 0 0 0 None) (mk_datetime 739001 10 0 0 0 None))
    sample_env sample_db
  = (mk_response 400 (Content (failed (py "Start time must be before end time."))),
     sample_db)
  /\ serve_create_booking
       (sample_booking (mk_datetime 739001 10 0 0 0 None) (mk_datetime 739001 11 0 0 0 None))
       sample_env sample_db
     = (mk_response 500 InternalServerError, sample_db).
Proof.
  split.
  - refine (proj1 (naive_booking_refused
      (sample_booking (mk_datetime 739001 11 0 0 0 None) (mk_datetime 739001 10 0 0 0 None))
      sample_env sample_db _) _).
    + left. unfold aware. vm_compute. intros [? H]. discriminate H.
    + vm_compute. repeat split; discriminate.
  - refine (proj2 (naive_booking_refused
      (sample_booking (mk_datetime 739001 10 0 0 0 None) (mk_datetime 739001 11 0 0 0 None))
      sample_env sample_db _) _).
    + left. unfold aware. vm_compute. intros [? H]. discriminate H.
    + vm_compute. intros (_ & _ & H). by apply H.
Defined.

(** ** The application as a whole *)

(** A protected route leaves the database alone or answers as its
    endpoint does. *)
Lemma protected_effect {P D R} (response_model : D -> R) (endpoint : P -> M (returned D))
    (x_api_key : option str) (parameter : option P) (env : Env) (db : Db) :
  snd (protected response_model endpoint x_api_key parameter env db) = db
  \/ exists p, protected response_model endpoint x_api_key parameter env db
               = run_endpoint response_model (endpoint p) env db.
Proof.
  rewrite protected_cases. destruct x_api_key as [key|]; [|by left].
  destruct (bool_decide _); [by left|]. destruct parameter as [p|]; [|by left]. eauto.
Qed.

Lemma with_body_effect {P D R} (response_model : D -> R) (endpoint : P -> M (returned D))
    (validate : json -> option P) (x_api_key : option str) (request_body : received)
    (env : Env) (db : Db) :
  snd (with_body response_model endpoint validate x_api_key request_body env db) = db
  \/ exists p, with_body response_model endpoint validate x_api_key request_body env db
               = run_endpoint response_model (endpoint p) env db.
Proof.
  unfold with_body. destruct request_body as [|v| | |]; try (by left);
    apply protected_effect.
Qed.

(** What one request does to the two collections: nothing, or one
    feedback document more, or one booking document more; a document is
    added only after the checks of its handler. *)
Lemma app_effect (datetime_validate : json -> option datetime) (req : request)
    (env : Env) (db : Db) :
  (feedback (snd (app datetime_validate req env db)) = feedback db
   /\ bookings (snd (app datetime_validate req env db)) = bookings db)
  \/ (exists feedback_in,
        (10 <= len (strip (FeedbackCreate.feedback feedback_in)))%nat
        /\ fresh db_feedback env db
        /\ feedback (snd (app datetime_validate req env db))
           = feedback db ++ [feedback_data feedback_in (datetime_of_clock (clock env))
                               (generated_id env)]
        /\ bookings (snd (app datetime_validate req env db)) = bookings db)
  \/ (exists booking,
        orderly booking env
        /\ within_office_hours booking
        /\ (forall existing, existing ∈ bookings db -> ~ overlaps_in_millis existing booking)
        /\ fresh db_bookings env db
        /\ feedback (snd (app datetime_validate req env db)) = feedback db
        /\ bookings (snd (app datetime_validate req env db))
           = bookings db ++ [new_booking booking (generated_id env)]).
Proof.
  destruct req as [|key request_body|key id|key request_body|key id];
    unfold app, outcome; cbn [snd]; [by left|..].
  - unfold POST_feedback.
    destruct (with_body_effect FeedbackInDB_validate create_feedback
                FeedbackCreate_validate key request_body env db) as [->|[feedback_in ->]];
      [by left|].
    destruct (serve_create_feedback_effect feedback_in env db)
      as [(_ & ? & ?)|(_ & ? & ? & ? & ?)]; [by left|].
    right. left. by exists feedback_in.
  - pose proof (lookups_read_only_helper key id env db) as (? & ? & _). by left.
  - unfold POST_booking.
    destruct (with_body_effect BookingInDB_validate create_booking
                (BookingCreate_validate datetime_validate) key request_body env db)
      as [->|[booking ->]]; [by left|].
    destruct (serve_create_booking_effect booking env db)
      as [(_ & ? & ?)|(_ & ? & ? & ? & ? & ? & ?)]; [by left|].
    right. right. by exists booking.
  - pose proof (lookups_read_only_helper key id env db) as (_ & _ & ? & ?). by left.
Qed.

Lemma conflict_sym (a b : BookingDoc.t) : conflict a b <-> conflict b a.
Proof. unfold conflict. lia. Qed.

Lemma conflict_new_booking (existing : BookingDoc.t) (booking : BookingCreate.t)
    (oid : ObjectId) :
  conflict existing (new_booking booking oid) <-> overlaps_in_millis existing booking.
Proof. done. Qed.

Lemma conflict_free_snoc (l : list BookingDoc.t) (x : BookingDoc.t) :
  conflict_free l -> (forall a, a ∈ l -> ~ conflict a x) -> conflict_free (l ++ [x]).
Proof.
  intros Hl Hx i j a b Hij Ha Hb.
  destruct (decide (i < length l)%nat) as [Hi|Hi];
    destruct (decide (j < length l)%nat) as [Hj|Hj].
  - rewrite lookup_app_l in Ha, Hb by done. by apply (Hl i j).
  - rewrite lookup_app_l in Ha by done. rewrite lookup_app_r in Hb by lia.
    apply list_lookup_singleton_Some in Hb as [_ <-].
    apply Hx. by apply list_elem_of_lookup_2 in Ha.
  - rewrite lookup_app_l in Hb by done. rewrite lookup_app_r in Ha by lia.
    apply list_lookup_singleton_Some in Ha as [_ <-].
    rewrite conflict_sym. apply Hx. by apply list_elem_of_lookup_2 in Hb.
  - rewrite lookup_app_r in Ha, Hb by lia.
    apply list_lookup_singleton_Some in Ha as [Hi' _].
    apply list_lookup_singleton_Some in Hb as [Hj' _]. lia.
Qed.

Lemma unique_ids_snoc {D} (c : Collection D) (l : list D) (x : D) :
  NoDup (map (doc_id c) l) -> (forall d, d ∈ l -> doc_id c d <> doc_id c x) ->
  NoDup (map (doc_id c) (l ++ [x])).
Proof.
  intros Hl Hx. rewrite map_app. apply NoDup_app. split; [done|]. split.
  - intros y Hy [->|H]%elem_of_cons; [|inversion H].
    apply list_elem_of_fmap in Hy as (d & Hd & Hin). by apply (Hx d).
  - cbn. apply NoDup_singleton.
Qed.

(** One request keeps the stored bookings free of conflicts, the stored
    documents regular and the identifiers distinct. *)
Lemma app_keeps (datetime_validate : json -> option datetime) (req : request)
    (env : Env) (db : Db) :
  (conflict_free (bookings db) ->
   conflict_free (bookings (snd (app datetime_validate req env db))))
  /\ (Forall regular_booking (bookings db) ->
      Forall regular_booking (bookings (snd (app datetime_validate req env db))))
  /\ (Forall regular_feedback (feedback db) ->
      Forall regular_feedback (feedback (snd (app datetime_validate req env db))))
  /\ (unique_ids db_feedback db ->
      unique_ids db_feedback (snd (app datetime_validate req env db)))
  /\ (unique_ids db_bookings db ->
      unique_ids db_bookings (snd (app datetime_validate req env db))).
Proof.
  unfold unique_ids. cbn [docs db_feedback db_bookings].
  destruct (app_effect datetime_validate req env db)
    as [[-> ->]|[(fb & Hlen & Hfresh & -> & ->)|(b & Ho & Hh & Hfree & Hfresh & -> & ->)]].
  - done.
  - repeat split; try done.
    + intros H. apply Forall_app. split; [done|]. constructor; [|constructor].
      unfold regular_feedback. cbn. done.
    + intros H. by apply (unique_ids_snoc db_feedback).
  - repeat split; try done.
    + intros H. apply conflict_free_snoc; [done|]. intros a Ha. by apply Hfree.
    + intros H. apply Forall_app. split; [done|]. constructor; [|constructor].
      destruct Ho as (_ & _ & Horder & _). unfold regular_booking, bson_date. cbn.
      apply Z.div_le_mono; lia.
    + intros H. by apply (unique_ids_snoc db_bookings).
Qed.

(** X13: stored bookings never come to overlap: if no two documents of
    the booking collection overlap, the same holds after any sequence of
    requests, whatever their keys, bodies, clock readings and generated
    identifiers are. *)
Theorem bookings_never_overlap (datetime_validate : json -> option datetime)
    (requests : list (request * Env)) (db : Db) :
  conflict_free (bookings db) ->
  conflict_free (bookings (serve_all datetime_validate requests db)).
Proof.
  revert db. induction requests as [|[req env] requests IH]; intros db Hdb; [done|].
  cbn [serve_all]. apply IH. by apply app_keeps.
Qed.

(** X14: no stored booking ever ends before it starts: if each
    document of the booking collection has a start that is not after its
    end, the same holds after any sequence of requests (an accepted
    request has its start strictly before its end, and the cut to the
    millisecond keeps their order). *)
Theorem stored_bookings_stay_regular (datetime_validate : json -> option datetime)
    (requests : list (request * Env)) (db : Db) :
  Forall regular_booking (bookings db) ->
  Forall regular_booking (bookings (serve_all datetime_validate requests db)).
Proof.
  revert db. induction requests as [|[req env] requests IH]; intros db Hdb; [done|].
  cbn [serve_all]. apply IH. by apply app_keeps.
Qed.

(** X15: every stored feedback stays long enough: if each document of
    the feedback collection has a text of at least ten characters after
    trimming, the same holds after any sequence of requests. *)
Theorem stored_feedback_stays_regular (datetime_validate : json -> option datetime)
    (requests : list (request * Env)) (db : Db) :
  Forall regular_feedback (feedback db) ->
  Forall regular_feedback (feedback (serve_all datetime_validate requests db)).
Proof.
  revert db. induction requests as [|[req env] requests IH]; intros db Hdb; [done|].
  cbn [serve_all]. apply IH. by apply app_keeps.
Qed.

Lemma conflict_free_singleton (x : BookingDoc.t) : conflict_free [x].
Proof.
  intros [|i] [|j] a b Hij Ha Hb; cbn in *; try done.
Qed.

Lemma bookings_never_overlap_witness :
  conflict_free (bookings (serve_all sample_datetime_validate sample_requests sample_db)).
Proof.
  apply bookings_never_overlap. vm_compute bookings. apply conflict_free_singleton.
Defined.

Lemma stored_bookings_stay_regular_witness :
  Forall regular_booking
    (bookings (serve_all sample_datetime_validate sample_requests sample_db)).
Proof.
  apply stored_bookings_stay_regular. repeat constructor. vm_compute. discriminate.
Defined.

Lemma stored_feedback_stays_regular_witness :
  Forall regular_feedback
    (feedback (serve_all sample_datetime_validate sample_requests sample_db)).
Proof.
  apply stored_feedback_stays_regular. vm_compute. constructor.
Defined.

(** X16: the collections only grow: after any sequence of requests the
    documents that were stored are still there, unchanged and in the
    same order, at the head of their collection, and the two collections
    together have gained at most one document per request. *)
Theorem collections_only_grow (datetime_validate : json -> option datetime)
    (requests : list (request * Env)) (db : Db) :
  feedback db `prefix_of` feedback (serve_all datetime_validate requests db)
  /\ bookings db `prefix_of` bookings (serve_all datetime_validate requests db)
  /\ (length (feedback (serve_all datetime_validate requests db))
      + length (bookings (serve_all datetime_validate requests db))
      <= length (feedback db) + length (bookings db) + length requests)%nat.
Proof.
  revert db. induction requests as [|[req env] requests IH]; intros db.
  { cbn. repeat split; [done|done|lia]. }
  cbn [serve_all]. destruct (IH (snd (app datetime_validate req env db))) as (Hf & Hb & Hn).
  destruct (app_effect datetime_validate req env db)
    as [[Ef Eb]|[(fb & _ & _ & Ef & Eb)|(b & _ & _ & _ & _ & Ef & Eb)]];
    rewrite Ef, Eb in *; (split; [|split]).
  - done.
  - done.
  - cbn [length]. lia.
  - etransitivity; [|exact Hf]. by apply prefix_app_r.
  - done.
  - rewrite length_app in Hn. cbn [length] in *. lia.
  - done.
  - etransitivity; [|exact Hb]. by apply prefix_app_r.
  - rewrite length_app in Hn. cbn [length] in *. lia.
Qed.

(** Along any sequence of requests the identifiers of each collection
    stay pairwise distinct. *)
Lemma serve_all_unique_ids (datetime_validate : json -> option datetime)
    (requests : list (request * Env)) (db : Db) :
  unique_ids db_feedback db -> unique_ids db_bookings db ->
  unique_ids db_feedback (serve_all datetime_validate requests db)
  /\ unique_ids db_bookings (serve_all datetime_validate requests db).
Proof.
  revert db. induction requests as [|[req env] requests IH]; intros db Hf Hb; [done|].
  cbn [serve_all]. apply IH; by apply app_keeps.
Qed.

(** X17: nothing stored is ever lost to the lookups: starting with
    pairwise distinct identifiers in each collection, after any sequence
    of requests every stored document is returned, with status 200, by
    the lookup route of its collection for the text of its identifier
    and the configured key. *)
Theorem every_stored_document_retrievable (datetime_validate : json -> option datetime)
    (requests : list (request * Env)) (db : Db) (key : str) (env : Env) :
  unique_ids db_feedback db -> unique_ids db_bookings db ->
  API_KEY env = Some key ->
  (forall doc, doc ∈ feedback (serve_all datetime_validate requests db) ->
     fst (GET_feedback (Some key) (ObjectId_str (FeedbackDoc._id doc)) env
            (serve_all datetime_validate requests db))
     = mk_response 200 (Model (FeedbackInDB_validate doc)))
  /\ (forall doc, doc ∈ bookings (serve_all datetime_validate requests db) ->
        fst (GET_booking (Some key) (ObjectId_str (BookingDoc._id doc)) env
               (serve_all datetime_validate requests db))
        = mk_response 200 (Model (BookingInDB_validate doc))).
Proof.
  intros Hf Hb Hkey.
  destruct (serve_all_unique_ids datetime_validate requests db Hf Hb) as [Hf' Hb'].
  unfold GET_feedback, GET_booking. split; intros doc Hdoc.
  - rewrite protected_authorized by done.
    change (run_endpoint FeedbackInDB_validate (get_feedback ?id)) with (serve_get_feedback id).
    rewrite serve_get_feedback_unfold, ObjectId_of_str_str.
    pose proof (find_unique db_feedback _ doc Hf' Hdoc) as Hfind.
    cbn in Hfind. by rewrite Hfind.
  - rewrite protected_authorized by done.
    change (run_endpoint BookingInDB_validate (get_booking ?id)) with (serve_get_booking id).
    rewrite serve_get_booking_unfold, ObjectId_of_str_str.
    pose proof (find_unique db_bookings _ doc Hb' Hdoc) as Hfind.
    cbn in Hfind. by rewrite Hfind.
Qed.

Lemma every_stored_document_retrievable_witness :
  fst (GET_booking (Some (py "secret")) (ObjectId_str oid_2) sample_env
         (serve_all sample_datetime_validate sample_requests sample_db))
  = mk_response 200
      (Model (BookingInDB_validate
                (new_booking (sample_booking (at_utc 739001 11 0) (at_utc 739001 12 0))
                   oid_2))).
Proof.
  refine (proj2 (every_stored_document_retrievable sample_datetime_validate
    sample_requests sample_db (py "secret") sample_env _ _ eq_refl)
    (new_booking (sample_booking (at_utc 739001 11 0) (at_utc 739001 12 0)) oid_2) _).
  - unfold unique_ids. vm_compute. constructor.
  - unfold unique_ids. vm_compute. repeat constructor. intros H. inversion H.
  - vm_compute. right. left.
Defined.

(** ** Conflicts *)

(** X18: an accepted booking blocks its own slot: when a booking
    request whose start and end fall in different milliseconds has been
    answered 200, the same request sent again, at a clock reading that
    is still not after its start, is answered 409 and the reason names
    the identifier the first answer returned. *)
Theorem repeated_booking_refused (booking : BookingCreate.t) (env env' : Env)
    (db db' : Db) (created : BookingInDB.t) :
  serve_create_booking booking env db = (mk_response 200 (Model created), db') ->
  bson_date (BookingCreate.start_time booking) < bson_date (BookingCreate.end_time booking) ->
  clock env' <= utc_micros (BookingCreate.start_time booking) ->
  exists id,
    BookingInDB.id created = Some id
    /\ serve_create_booking booking env' db'
       = (mk_response 409
            (Content (failed (py "Time slot unavailable. Overlaps with booking ID: "
                              ++ id))),
          called (FindOne "bookings") db').
Proof.
  intros Hfirst Hspan Hclock. pose proof Hfirst as Hcreated.
  apply serve_create_booking_200 in Hcreated as (-> & _ & Hbk & _).
  destruct (serve_create_booking_effect booking env db)
    as [(Hno & _)|(_ & (Hs & He & Horder & _) & Hhours & Hfree & _)].
  { rewrite Hfirst in Hno. done. }
  eexists. split; [reflexivity|].
  rewrite serve_create_booking_checked; [|by repeat split|done].
  assert (List.find (overlap_query booking) (bookings db')
          = Some (new_booking booking (generated_id env))) as ->; [|done].
  rewrite Hbk. apply find_first. exists (bookings db), []. split; [done|]. split.
  - apply overlap_query_spec. unfold overlaps_in_millis. cbn. lia.
  - intros y Hy. apply overlap_query_false. by apply Hfree.
Qed.

Lemma repeated_booking_refused_witness :
  exists id,
    BookingInDB.id
      (BookingInDB_validate
         (new_booking (sample_booking (at_utc 739001 11 0) (at_utc 739001 12 0)) oid_2))
    = Some id
    /\ serve_create_booking (sample_booking (at_utc 739001 11 0) (at_utc 739001 12 0))
         sample_env
         (snd (serve_create_booking
                 (sample_booking (at_utc 739001 11 0) (at_utc 739001 12 0))
                 sample_env sample_db))
       = (mk_response 409
            (Content (failed (py "Time slot unavailable. Overlaps with booking ID: "
                              ++ id))),
          called (FindOne "bookings")
            (snd (serve_create_booking
                    (sample_booking (at_utc 739001 11 0) (at_utc 739001 12 0))
                    sample_env sample_db))).
Proof.
  apply (repeated_booking_refused
    (sample_booking (at_utc 739001 11 0) (at_utc 739001 12 0)) sample_env sample_env
    sample_db).
  - vm_compute. reflexivity.
  - vm_compute. reflexivity.
  - vm_compute. discriminate.
Defined.

(** X19: a 409 is never a false alarm: whenever a booking request is
    answered 409, the reason names the identifier of a stored booking
    that starts before the requested end and ends after the requested
    start, and the collections are unchanged. *)
Theorem conflict_answer_names_overlap (booking : BookingCreate.t) (env : Env) (db : Db) :
  status_code (fst (serve_create_booking booking env db)) = 409 ->
  exists existing,
    existing ∈ bookings db
    /\ overlaps existing booking
    /\ serve_create_booking booking env db
       = (mk_response 409
            (Content [("status", py "failed");
                      ("reason", py "Time slot unavailable. Overlaps with booking ID: "
                                 ++ ObjectId_str (BookingDoc._id existing))]),
          called (FindOne "bookings") db).
Proof.
  rewrite serve_create_booking_unfold.
  repeat case_match; cbn; try done. intros _.
  match goal with
  | H : List.find _ _ = Some ?e |- _ =>
      apply find_first in H as (before & after & Hsplit & Hov & _); exists e
  end.
  split; [rewrite Hsplit; set_solver|].
  split; [by apply overlaps_in_millis_overlaps, overlap_query_spec|done].
Qed.

Lemma conflict_answer_names_overlap_witness :
  exists existing,
    existing ∈ bookings sample_db
    /\ overlaps existing (sample_booking (at_utc 739001 10 30) (at_utc 739001 11 30))
    /\ serve_create_booking (sample_booking (at_utc 739001 10 30) (at_utc 739001 11 30))
         sample_env sample_db
       = (mk_response 409
            (Content [("status", py "failed");
                      ("reason", py "Time slot unavailable. Overlaps with booking ID: "
                                 ++ ObjectId_str (BookingDoc._id existing))]),
          called (FindOne "bookings") sample_db).
Proof.
  apply conflict_answer_names_overlap. vm_compute. reflexivity.
Defined.

(** ** Request bodies and statuses *)

Lemma FeedbackCreate_validate_Some (request_body : json) (feedback_in : FeedbackCreate.t) :
  FeedbackCreate_validate request_body = Some feedback_in
  <-> exists o,
        request_body = JObject o
        /\ o !! "name" = Some (JString (FeedbackCreate.name feedback_in))
        /\ o !! "email" = Some (JString (FeedbackCreate.email feedback_in))
        /\ o !! "feedback" = Some (JString (FeedbackCreate.feedback feedback_in)).
Proof.
  split.
  - destruct request_body as [| | | | |o]; try done. cbn.
    destruct (o !! "name") as [[]|] eqn:Hn; try done.
    destruct (o !! "email") as [[]|] eqn:He; try done.
    destruct (o !! "feedback") as [[]|] eqn:Hf; try done. cbn.
    intros [= <-]. by exists o.
  - intros (o & -> & Hn & He & Hf). cbn. rewrite Hn, He, Hf. cbn. by destruct feedback_in.
Qed.

(** X20: with the configured key, [POST /feedback] answers 422 exactly
    when the body could be read and is not a JSON object whose keys
    [name], [email] and [feedback] all hold strings: an absent body, a
    body that is not sent as JSON and a body that does not decode are
    all answered 422, a body that cannot be read is answered 400; when
    the body is such an object, the answer is the handler's for those
    three values, so any other key of the body is ignored. *)
Theorem feedback_body_fields (key : str) (request_body : received) (env : Env) (db : Db) :
  API_KEY env = Some key ->
  (status_code (fst (POST_feedback (Some key) request_body env db)) = 422
   <-> request_body <> BodyReadError
       /\ ~ exists o name email text,
              request_body = JsonBody (JObject o)
              /\ o !! "name" = Some (JString name)
              /\ o !! "email" = Some (JString email)
              /\ o !! "feedback" = Some (JString text))
  /\ (request_body = BodyReadError ->
      POST_feedback (Some key) request_body env db
      = (mk_response 400 (Detail (py "There was an error parsing the body")), db))
  /\ (forall o name email text,
        request_body = JsonBody (JObject o) ->
        o !! "name" = Some (JString name) ->
        o !! "email" = Some (JString email) ->
        o !! "feedback" = Some (JString text) ->
        POST_feedback (Some key) request_body env db
        = serve_create_feedback (FeedbackCreate.mk name email text) env db).
Proof.
  intros Hkey. unfold POST_feedback. rewrite with_body_cases, Hkey.
  rewrite bool_decide_eq_false_2 by eauto. split; [|split].
  - destruct request_body as [|v| | |]; cbn;
      try (split; [intros _; split; [done|]; by intros (? & ? & ? & ? & ? & _) | done]).
    + destruct (FeedbackCreate_validate v) as [feedback_in|] eqn:Hv.
      * apply FeedbackCreate_validate_Some in Hv as (o & -> & Hn & He & Hf). split.
        -- intros H. pose proof (serve_create_feedback_status feedback_in env db) as H'.
           unfold serve_create_feedback in H'. rewrite H in H'. not_listed H'.
        -- intros [_ Hnot]. destruct Hnot. by eexists o, _, _, _.
      * split; [|done]. intros _. split; [done|].
        intros (o & name & email & text & [= ->] & Hn & He & Hf).
        assert (FeedbackCreate_validate (JObject o)
                = Some (FeedbackCreate.mk name email text)) as Hsome
          by (apply FeedbackCreate_validate_Some; by exists o).
        rewrite Hsome in Hv. done.
    + split; [done|]. by intros [? _].
  - by intros ->.
  - intros o name email text -> Hn He Hf.
    assert (FeedbackCreate_validate (JObject o)
            = Some (FeedbackCreate.mk name email text)) as ->
      by (apply FeedbackCreate_validate_Some; by exists o).
    done.
Qed.

Lemma feedback_body_fields_witness :
  POST_feedback (Some (py "secret"))
    (JsonBody
       (JObject (<["rating" := JNumber 5]>
                   (<["name" := JString (py "Alice")]>
                   (<["email" := JString (py "a@x.com")]>
                   (<["feedback" := JString (py "This is more than ten characters")]> ∅))))))
    sample_env empty_db
  = serve_create_feedback (sample_feedback "This is more than ten characters")
      sample_env empty_db.
Proof.
  refine (proj2 (proj2 (feedback_body_fields (py "secret") _ sample_env empty_db eq_refl))
    _ _ _ _ eq_refl _ _ _); vm_compute; reflexivity.
Defined.

(** X21: the statuses each protected route can answer: [POST /feedback]
    only 200, 400, 401, 422 or 500; the two lookups only 200, 400, 401,
    404 or 422; [POST /booking] only 200, 400, 401, 409, 422 or 500. *)
Theorem route_statuses (datetime_validate : json -> option datetime)
    (x_api_key : option str) (request_body : received) (id : str) (env : Env) (db : Db) :
  status_code (fst (POST_feedback x_api_key request_body env db))
    ∈ [200; 400; 401; 422; 500]
  /\ status_code (fst (GET_feedback x_api_key id env db)) ∈ [200; 400; 401; 404; 422]
  /\ status_code (fst (POST_booking datetime_validate x_api_key request_body env db))
       ∈ [200; 400; 401; 409; 422; 500]
  /\ status_code (fst (GET_booking x_api_key id env db)) ∈ [200; 400; 401; 404; 422].
Proof.
  unfold POST_feedback, GET_feedback, POST_booking, GET_booking.
  rewrite !with_body_cases, !protected_cases.
  change (run_endpoint FeedbackInDB_validate (get_feedback id)) with (serve_get_feedback id).
  change (run_endpoint BookingInDB_validate (get_booking id)) with (serve_get_booking id).
  rewrite serve_get_feedback_unfold, serve_get_booking_unfold.
  split; [|split; [|split]].
  - destruct request_body as [|v| | |], x_api_key as [key|];
      try solve [cbn; repeat first [by left | right]];
      (destruct (bool_decide _); [solve [cbn; repeat first [by left | right]]|]);
      try solve [cbn; repeat first [by left | right]].
    destruct (FeedbackCreate_validate v) as [feedback_in|];
      [|cbn; repeat first [by left | right]].
    change (run_endpoint FeedbackInDB_validate (create_feedback feedback_in))
      with (serve_create_feedback feedback_in).
    rewrite serve_create_feedback_unfold.
    repeat case_match; cbn; repeat first [by left | right].
  - repeat case_match; cbn; repeat first [by left | right].
  - destruct request_body as [|v| | |], x_api_key as [key|];
      try solve [cbn; repeat first [by left | right]];
      (destruct (bool_decide _); [solve [cbn; repeat first [by left | right]]|]);
      try solve [cbn; repeat first [by left | right]].
    destruct (BookingCreate_validate datetime_validate v) as [booking|];
      [|cbn; repeat first [by left | right]].
    change (run_endpoint BookingInDB_validate (create_booking booking))
      with (serve_create_booking booking).
    rewrite serve_create_booking_unfold.
    repeat case_match; cbn; repeat first [by left | right].
  - repeat case_match; cbn; repeat first [by left | right].
Qed.
